(** * Advisor Agent: risk scoring and study recommendations

    A shallow embedding of [lambda/advisor_agent/app.py]: the three threshold
    ladders, [compute_risk], [build_recommendations], [_safe_json],
    [response] and [lambda_handler], with the Python values they work on.

    - A request payload is the dict that [json.loads] produced: a finite map
      from text keys to JSON values.
    - A Python [float] is an IEEE 754 binary64 number, modelled with the
      Standard Library's [spec_float] at precision 53 and maximal exponent
      1024; the arithmetic is the library's bit-exact one.
    - [int(...)] and [float(...)] can raise; a function that calls them
      returns a [result].
    - [json.loads], [json.dumps], the threshold read from the environment
      and the clock are parameters of the handler, which gives back what it
      passed to [log.info] beside what it returned or raised. *)

From Stdlib Require Import ZArith String Ascii List Bool Lia.
From Stdlib Require Import Floats.SpecFloat.
From stdpp Require Import base option gmap strings sorting.

Set Warnings "-register-all".
Open Scope Z_scope.

(** ** Binary64 numbers *)

Module Float64.

Definition prec : Z := 53.
Definition emax : Z := 1024.

Definition float : Type := spec_float.

(** The values a Python float can take: the canonical ones. *)
Definition is_binary64 (x : float) : bool := valid_binary prec emax x.

Definition add (x y : float) : float := SFadd prec emax x y.

(** Python's comparison operators on floats; every comparison with a NaN
    is false. *)
Definition lt (x y : float) : bool :=
  match SFcompare x y with Some Lt => true | _ => false end.
Definition le (x y : float) : bool :=
  match SFcompare x y with Some (Lt | Eq) => true | _ => false end.
Definition ge (x y : float) : bool :=
  match SFcompare x y with Some (Gt | Eq) => true | _ => false end.
Definition eqb (x y : float) : bool :=
  match SFcompare x y with Some Eq => true | _ => false end.

(** The integer [z] as a float, rounded to nearest even; an integer too
    large for the format comes out as an infinity. *)
Definition of_Z (z : Z) : float := binary_normalize prec emax z 0 false.

(** The float nearest to [m * 10 ^ e10], ties to even: what a decimal
    literal or a decimal text denotes. *)
Definition of_decimal (neg : bool) (m : Z) (e10 : Z) : float :=
  match m with
  | Zpos p =>
      if 0 <=? e10
      then binary_normalize prec emax (cond_Zopp neg (Zpos p * 10 ^ e10)) 0 false
      else SFdiv prec emax (S754_finite neg p 0)
                           (S754_finite false (Z.to_pos (10 ^ (- e10))) 0)
  | _ => S754_zero neg
  end.

(** Truncation toward zero, [None] for NaN and the infinities. *)
Definition trunc (x : float) : option Z :=
  match x with
  | S754_zero _ => Some 0
  | S754_finite s m e => Some (cond_Zopp s (Z.shiftl (Zpos m) e))
  | S754_infinity _ | S754_nan => None
  end.

End Float64.

Abbreviation float := Float64.float.

(** ** Decimal texts: the grammar of [int(str)] and [float(str)]

    A text is a sequence of code points; as a [string] it is their UTF-8
    encoding.  [int] and [float] first read every white space character
    beyond ASCII as a space and every decimal digit beyond ASCII as the
    ASCII digit of its value, then parse the result: white space around the
    number (tab, line feed, vertical tab, form feed, carriage return and
    space), an optional sign, groups of digits that single underscores may
    separate.  The character classes are those of Unicode 14.0, the
    database of CPython 3.11. *)

Module Text.

Definition code (c : ascii) : Z := Z.of_N (N_of_ascii c).

(** The six bits a continuation byte carries. *)
Definition continuation (c : ascii) : option Z :=
  let n := code c in
  if (128 <=? n) && (n <=? 191) then Some (n - 128) else None.

(** The code points a UTF-8 text encodes; -1 stands for a byte that starts
    no well-formed sequence (overlong forms and surrogates included). *)
Fixpoint decode (l : list ascii) : list Z :=
  match l with
  | [] => []
  | b0 :: t =>
      let n0 := code b0 in
      if n0 <? 128 then n0 :: decode t
      else if (194 <=? n0) && (n0 <=? 223) then
        match t with
        | b1 :: t1 =>
            match continuation b1 with
            | Some x1 => ((n0 - 192) * 64 + x1) :: decode t1
            | None => -1 :: decode t
            end
        | [] => [-1]
        end
      else if (224 <=? n0) && (n0 <=? 239) then
        match t with
        | b1 :: b2 :: t2 =>
            match continuation b1, continuation b2 with
            | Some x1, Some x2 =>
                let cp := ((n0 - 224) * 64 + x1) * 64 + x2 in
                if (2048 <=? cp) && negb ((55296 <=? cp) && (cp <=? 57343))
                then cp :: decode t2
                else -1 :: decode t
            | _, _ => -1 :: decode t
            end
        | _ => -1 :: decode t
        end
      else if (240 <=? n0) && (n0 <=? 244) then
        match t with
        | b1 :: b2 :: b3 :: t3 =>
            match continuation b1, continuation b2, continuation b3 with
            | Some x1, Some x2, Some x3 =>
                let cp := (((n0 - 240) * 64 + x1) * 64 + x2) * 64 + x3 in
                if (65536 <=? cp) && (cp <=? 1114111)
                then cp :: decode t3
                else -1 :: decode t
            | _, _, _ => -1 :: decode t
            end
        | _ => -1 :: decode t
        end
      else -1 :: decode t
  end.

(** The white space characters beyond ASCII. *)
Definition unicode_spaces : list Z :=
  [ 133; 160; 5760; 8192; 8193; 8194; 8195; 8196; 8197; 8198;
    8199; 8200; 8201; 8202; 8232; 8233; 8239; 8287; 12288 ].

(** The decimal digits beyond ASCII: each run starts at a digit of value 0
    and goes on through the values 0 to 9, once or several times. *)
Definition decimal_runs : list (Z * Z) :=
  [ (1632, 10); (1776, 10); (1984, 10); (2406, 10); (2534, 10);
    (2662, 10); (2790, 10); (2918, 10); (3046, 10); (3174, 10);
    (3302, 10); (3430, 10); (3558, 10); (3664, 10); (3792, 10);
    (3872, 10); (4160, 10); (4240, 10); (6112, 10); (6160, 10);
    (6470, 10); (6608, 10); (6784, 10); (6800, 10); (6992, 10);
    (7088, 10); (7232, 10); (7248, 10); (42528, 10); (43216, 10);
    (43264, 10); (43472, 10); (43504, 10); (43600, 10); (44016, 10);
    (65296, 10); (66720, 10); (68912, 10); (69734, 10); (69872, 10);
    (69942, 10); (70096, 10); (70384, 10); (70736, 10); (70864, 10);
    (71248, 10); (71360, 10); (71472, 10); (71904, 10); (72016, 10);
    (72784, 10); (73040, 10); (73120, 10); (92768, 10); (92864, 10);
    (93008, 10); (120782, 50); (123200, 10); (123632, 10); (125264, 10);
    (130032, 10) ].

Definition is_unicode_space (cp : Z) : bool := existsb (Z.eqb cp) unicode_spaces.

Definition decimal (cp : Z) : option Z :=
  match List.find (fun r => (fst r <=? cp) && (cp <? fst r + snd r)) decimal_runs with
  | Some r => Some ((cp - fst r) mod 10)
  | None => None
  end.

(** What the parsers see of a code point: an ASCII character is itself, a
    white space character a space, a decimal digit the ASCII digit of its
    value, and anything else a character no number contains. *)
Definition to_ascii (cp : Z) : ascii :=
  if (0 <=? cp) && (cp <? 127) then ascii_of_N (Z.to_N cp)
  else if is_unicode_space cp then " "%char
  else
    match decimal cp with
    | Some d => ascii_of_N (Z.to_N (48 + d))
    | None => "?"%char
    end.

Definition chars (s : string) : list ascii :=
  map to_ascii (decode (list_ascii_of_string s)).

Definition is_space (c : ascii) : bool :=
  let n := Z.of_nat (nat_of_ascii c) in
  ((9 <=? n) && (n <=? 13)) || (n =? 32).

Definition digit_val (c : ascii) : option Z :=
  let n := Z.of_nat (nat_of_ascii c) in
  if (48 <=? n) && (n <=? 57) then Some (n - 48) else None.

Definition lower (c : ascii) : ascii :=
  let n := nat_of_ascii c in
  if ((65 <=? n) && (n <=? 90))%nat then ascii_of_nat (n + 32) else c.

Fixpoint lstrip (l : list ascii) : list ascii :=
  match l with
  | c :: t => if is_space c then lstrip t else l
  | [] => []
  end.

Definition strip (l : list ascii) : list ascii :=
  rev (lstrip (rev (lstrip l))).

Definition sign (l : list ascii) : bool * list ascii :=
  match l with
  | "-"%char :: t => (true, t)
  | "+"%char :: t => (false, t)
  | _ => (false, l)
  end.

(** After a first digit: [(["_"] digit)*]. Returns the digits read and the
    text left. *)
Fixpoint digits_tail (l : list ascii) : list Z * list ascii :=
  match l with
  | c :: t =>
      match digit_val c with
      | Some d => let '(ds, r) := digits_tail t in (d :: ds, r)
      | None =>
          if Ascii.eqb c "_" then
            match t with
            | c' :: t' =>
                match digit_val c' with
                | Some d => let '(ds, r) := digits_tail t' in (d :: ds, r)
                | None => ([], l)
                end
            | [] => ([], l)
            end
          else ([], l)
      end
  | [] => ([], [])
  end.

(** [digitpart ::= digit (["_"] digit)*] *)
Definition digitpart (l : list ascii) : option (list Z * list ascii) :=
  match l with
  | c :: t =>
      match digit_val c with
      | Some d => let '(ds, r) := digits_tail t in Some (d :: ds, r)
      | None => None
      end
  | [] => None
  end.

Definition number (ds : list Z) : Z := fold_left (fun acc d => 10 * acc + d) ds 0.

(** CPython refuses a decimal text of more digits than this. *)
Definition int_max_str_digits : nat := 4300.

(** [int(s)] in base 10; [None] stands for ValueError. *)
Definition to_int (s : string) : option Z :=
  let '(neg, l) := sign (strip (chars s)) in
  match digitpart l with
  | Some (ds, []) =>
      if (int_max_str_digits <? length ds)%nat then None
      else Some (cond_Zopp neg (number ds))
  | _ => None
  end.

(** [exponent ::= ("e" | "E") [sign] digitpart]; the text must end there. *)
Definition exponent (l : list ascii) : option Z :=
  match l with
  | [] => Some 0
  | c :: t =>
      if Ascii.eqb (lower c) "e" then
        let '(neg, t') := sign t in
        match digitpart t' with
        | Some (ds, []) => Some (cond_Zopp neg (number ds))
        | _ => None
        end
      else None
  end.

(** [number ::= [digitpart] "." digitpart | digitpart ["."]]. Returns the
    digits before the point, those after it and the text left. *)
Definition point_number (l : list ascii) : option (list Z * list Z * list ascii) :=
  match digitpart l with
  | Some (ip, "."%char :: r) =>
      match digitpart r with
      | Some (fp, r') => Some (ip, fp, r')
      | None => Some (ip, [], r)
      end
  | Some (ip, r) => Some (ip, [], r)
  | None =>
      match l with
      | "."%char :: r =>
          match digitpart r with
          | Some (fp, r') => Some ([], fp, r')
          | None => None
          end
      | _ => None
      end
  end.

(** [float(s)]; [None] stands for ValueError. *)
Definition to_float (s : string) : option float :=
  let '(neg, l) := sign (strip (chars s)) in
  let word := string_of_list_ascii (map lower l) in
  if String.eqb word "inf" || String.eqb word "infinity" then Some (S754_infinity neg)
  else if String.eqb word "nan" then Some S754_nan
  else
    match point_number l with
    | Some (ip, fp, r) =>
        match exponent r with
        | Some e => Some (Float64.of_decimal neg (number (ip ++ fp)) (e - Z.of_nat (length fp)))
        | None => None
        end
    | None => None
    end.

End Text.

(** A float literal of the source, as Python reads it. *)
Definition float_lit (s : string) : float :=
  match Text.to_float s with
  | Some x => x
  | None => S754_nan
  end.

(** ** Python values, exceptions and the two conversions *)

(** What [json.loads] can put in a dict. *)
Inductive value : Type :=
  | VNone
  | VBool (b : bool)
  | VInt (z : Z)
  | VFloat (x : float)
  | VStr (s : string)
  | VList (l : list value)
  | VDict (d : gmap string value).

Abbreviation payload := (gmap string value).

Inductive exn : Type := TypeError | ValueError | OverflowError.

Inductive result (A : Type) : Type :=
  | Ok (a : A)
  | Raise (e : exn).

Arguments Ok {A} a.
Arguments Raise {A} e.

#[global] Instance result_ret : MRet result := fun A a => Ok a.
#[global] Instance result_bind : MBind result := fun A B f r =>
  match r with
  | Ok a => f a
  | Raise e => Raise e
  end.

Definition returns {A} (r : result A) : Prop := exists a, r = Ok a.

(** [int(v)] *)
Definition py_int (v : value) : result Z :=
  match v with
  | VInt z => Ok z
  | VBool b => Ok (if b then 1 else 0)
  | VFloat x =>
      match x with
      | S754_nan => Raise ValueError
      | S754_infinity _ => Raise OverflowError
      | _ => match Float64.trunc x with Some z => Ok z | None => Raise ValueError end
      end
  | VStr s => match Text.to_int s with Some z => Ok z | None => Raise ValueError end
  | VNone | VList _ | VDict _ => Raise TypeError
  end.

(** [float(v)] *)
Definition py_float (v : value) : result float :=
  match v with
  | VFloat x => Ok x
  | VInt z =>
      match Float64.of_Z z with
      | S754_infinity _ => Raise OverflowError
      | x => Ok x
      end
  | VBool b => Ok (Float64.of_Z (if b then 1 else 0))
  | VStr s => match Text.to_float s with Some x => Ok x | None => Raise ValueError end
  | VNone | VList _ | VDict _ => Raise TypeError
  end.

(** [payload.get(key, 0)] *)
Definition get (p : payload) (key : string) (dflt : value) : value :=
  default dflt (p !! key).

(** [min(a, b)] of two floats: the first argument unless the second is
    smaller. *)
Definition py_min (a b : float) : float := if Float64.lt b a then b else a.

(** [if f: factors.append(f)] for [f : str | None]. *)
Definition append_if (factors : list string) (f : option string) : list string :=
  match f with
  | Some s => if String.eqb s "" then factors else factors ++ [s]
  | None => factors
  end.

(** ** The threshold ladders *)

Definition _days_inactive_to_score (days_inactive : float) : float * option string :=
  if Float64.ge days_inactive (Float64.of_Z 7) then (float_lit "0.30", Some "Inactive 7+ days"%string)
  else if Float64.ge days_inactive (Float64.of_Z 4) then (float_lit "0.18", Some "Inactive 4+ days"%string)
  else if Float64.ge days_inactive (Float64.of_Z 2) then (float_lit "0.08", Some "Inactive 2+ days"%string)
  else (float_lit "0.0", None).

Definition _missing_to_score (missing_14d : Z) : float * option string :=
  if missing_14d >=? 3 then (float_lit "0.35", Some "3+ missing assignments (14d)"%string)
  else if missing_14d =? 2 then (float_lit "0.25", Some "2 missing assignments (14d)"%string)
  else if missing_14d =? 1 then (float_lit "0.15", Some "1 missing assignment (14d)"%string)
  else (float_lit "0.0", None).

Definition _grade_to_score (avg_grade_pct : Z) : float * option string :=
  if avg_grade_pct <? 70 then (float_lit "0.35", Some "Average grade < 70%"%string)
  else if avg_grade_pct <? 80 then (float_lit "0.20", Some "Average grade < 80%"%string)
  else if avg_grade_pct <? 85 then (float_lit "0.10", Some "Average grade < 85%"%string)
  else (float_lit "0.0", None).

(** ** The scorer *)

Definition compute_risk (p : payload) : result (float * list string) :=
  missing_14d ← py_int (get p "missing_14d" (VInt 0));
  avg_grade_pct ← py_int (get p "avg_grade_pct" (VInt 0));
  days_inactive ← py_float (get p "days_inactive" (VInt 0));
  let score := float_lit "0.0" in
  let factors := [] in
  let '(s, f) := _missing_to_score missing_14d in
  let score := Float64.add score s in
  let factors := append_if factors f in
  let '(s, f) := _grade_to_score avg_grade_pct in
  let score := Float64.add score s in
  let factors := append_if factors f in
  let '(s, f) := _days_inactive_to_score days_inactive in
  let score := Float64.add score s in
  let factors := append_if factors f in
  mret (py_min score (float_lit "1.0"), factors).

(** ** The recommendation builder and the risk level

    [RISK_THRESHOLD] is read from the environment when the module is
    loaded; it is a parameter here. *)

Section Threshold.

Variable RISK_THRESHOLD : float.

Definition build_recommendations (p : payload) (risk_score : float)
    (factors : list string) : result (list string) :=
  let recs := [] in
  missing_14d ← py_int (get p "missing_14d" (VInt 0));
  avg_grade_pct ← py_int (get p "avg_grade_pct" (VInt 0));
  days_inactive ← py_float (get p "days_inactive" (VInt 0));
  submitted_14d ← py_int (get p "submitted_14d" (VInt 0));
  let recs :=
    if missing_14d >? 0 then
      recs ++ ["Make a 48-hour plan to complete the missing assignments (start with the highest-weight items)."%string]
           ++ ["Email the instructor to confirm deadlines and ask what to prioritize first."%string]
    else recs in
  let recs :=
    if avg_grade_pct <? 80 then
      recs ++ ["Block 45–60 minutes daily for targeted practice on weak topics (quiz + review mistakes)."%string]
           ++ ["Attend office hours or tutoring this week with 3 specific questions prepared."%string]
    else recs in
  let recs :=
    if Float64.ge days_inactive (Float64.of_Z 4) then
      recs ++ ["Log in today and complete one small task (discussion post, quiz attempt, or reading notes) to restart momentum."%string]
    else recs in
  let recs :=
    if Float64.ge risk_score RISK_THRESHOLD then
      recs ++ ["Create a weekly schedule: 3 study sessions + 1 catch-up session, and track completion."%string]
           ++ ["Use active recall: summarize each module in 5 bullets, then self-test without notes."%string]
    else
      recs ++ ["Keep current pace—set one weekly checkpoint to ensure no assignments are missed."%string] in
  let recs :=
    if submitted_14d =? 0 then
      recs ++ ["Start with the easiest assignment to build confidence, then move to the next due item."%string]
    else recs in
  let recs :=
    match factors with
    | [] => recs
    | _ :: _ => recs ++ [("Why this plan: " ++ String.concat ", " factors ++ ".")%string]
    end in
  mret recs.

(** ["HIGH" if risk >= RISK_THRESHOLD else "LOW"], from [lambda_handler]. *)
Definition risk_level (risk : float) : string :=
  if Float64.ge risk RISK_THRESHOLD then "HIGH"%string else "LOW"%string.

End Threshold.

(** [float(os.getenv("RISK_THRESHOLD", "0.75"))] when the variable is not
    set. *)
Definition DEFAULT_RISK_THRESHOLD : float := float_lit "0.75".

(** ** The signals behind a payload, and the score as a function of them *)

(** The three conversions [compute_risk] starts with, in its order. *)
Definition coerce_signals (p : payload) : result (Z * Z * float) :=
  missing_14d ← py_int (get p "missing_14d" (VInt 0));
  avg_grade_pct ← py_int (get p "avg_grade_pct" (VInt 0));
  days_inactive ← py_float (get p "days_inactive" (VInt 0));
  mret (missing_14d, avg_grade_pct, days_inactive).

(** The sum, the clamp and the factor list from the three rungs reached. *)
Definition assemble (a b c : float * option string) : float * list string :=
  (py_min (Float64.add (Float64.add (Float64.add (float_lit "0.0") (fst a)) (fst b)) (fst c))
          (float_lit "1.0"),
   append_if (append_if (append_if [] (snd a)) (snd b)) (snd c)).

Definition risk_of_signals (x : Z * Z * float) : float * list string :=
  let '(missing_14d, avg_grade_pct, days_inactive) := x in
  assemble (_missing_to_score missing_14d) (_grade_to_score avg_grade_pct)
           (_days_inactive_to_score days_inactive).

(** The rungs of each ladder, most severe first. *)
Definition missing_rungs : list (float * option string) :=
  [ (float_lit "0.35", Some "3+ missing assignments (14d)"%string);
    (float_lit "0.25", Some "2 missing assignments (14d)"%string);
    (float_lit "0.15", Some "1 missing assignment (14d)"%string);
    (float_lit "0.0", None) ].

Definition grade_rungs : list (float * option string) :=
  [ (float_lit "0.35", Some "Average grade < 70%"%string);
    (float_lit "0.20", Some "Average grade < 80%"%string);
    (float_lit "0.10", Some "Average grade < 85%"%string);
    (float_lit "0.0", None) ].

Definition inactive_rungs : list (float * option string) :=
  [ (float_lit "0.30", Some "Inactive 7+ days"%string);
    (float_lit "0.18", Some "Inactive 4+ days"%string);
    (float_lit "0.08", Some "Inactive 2+ days"%string);
    (float_lit "0.0", None) ].

(** A check run on every combination of rungs. *)
Definition all_rungs (chk : float * option string -> float * option string ->
                            float * option string -> bool) : bool :=
  forallb (fun a => forallb (fun b => forallb (fun c => chk a b c) inactive_rungs)
                            grade_rungs) missing_rungs.

(** Two payloads that differ in one signal, the second at least as severe. *)
Inductive more_severe : Z * Z * float -> Z * Z * float -> Prop :=
  | more_missing (m1 m2 g : Z) (d : float) :
      m1 <= m2 -> more_severe (m1, g, d) (m2, g, d)
  | lower_grade (m g1 g2 : Z) (d : float) :
      g2 <= g1 -> more_severe (m, g1, d) (m, g2, d)
  | longer_inactive (m g : Z) (d1 d2 : float) :
      Float64.le d1 d2 = true -> more_severe (m, g, d1) (m, g, d2).

(** The checks run over the rungs. *)
Definition in_unit_interval (s : float) : bool :=
  Float64.le (float_lit "0.0") s && Float64.le s (float_lit "1.0").

Definition factors_match_score (r : float * list string) : bool :=
  (length (snd r) <=? 3)%nat &&
  Bool.eqb (match snd r with [] => true | _ :: _ => false end)
           (Float64.eqb (fst r) (float_lit "0.0")).

Definition score_le (r1 r2 : float * list string) : bool :=
  Float64.le (fst r1) (fst r2).

Definition rung_le (a a' : float * option string) : bool :=
  Float64.le (fst a) (fst a').

Definition mem (s : string) (l : list string) : bool := existsb (String.eqb s) l.

Definition only_first_grade_factor (fs : list string) : bool :=
  mem "Average grade < 70%" fs && negb (mem "Average grade < 80%" fs)
  && negb (mem "Average grade < 85%" fs).

(** The payload that binds the three scored signals to numbers. *)
Definition signals (missing_14d avg_grade_pct : Z) (days_inactive : float) : payload :=
  {[ "missing_14d"%string := VInt missing_14d;
     "avg_grade_pct"%string := VInt avg_grade_pct;
     "days_inactive"%string := VFloat days_inactive ]}.

(** The four signals the core reads from a payload. *)
Definition signal_keys : list string :=
  ["missing_14d"; "avg_grade_pct"; "days_inactive"; "submitted_14d"]%string.

(** The three texts of the study-plan step. *)
Definition weekly_schedule : string :=
  "Create a weekly schedule: 3 study sessions + 1 catch-up session, and track completion.".
Definition active_recall : string :=
  "Use active recall: summarize each module in 5 bullets, then self-test without notes.".
Definition steady_pace : string :=
  "Keep current pace—set one weekly checkpoint to ensure no assignments are missed.".

(** [{missing_14d: 3, avg_grade_pct: 60, days_inactive: 8, submitted_14d: 0}] *)
Definition scenario_B : payload :=
  {[ "missing_14d"%string := VInt 3; "avg_grade_pct"%string := VInt 60;
     "days_inactive"%string := VInt 8; "submitted_14d"%string := VInt 0 ]}.

(** ** The texts of the builder, step by step *)

Definition plan_48h : string :=
  "Make a 48-hour plan to complete the missing assignments (start with the highest-weight items).".
Definition email_instructor : string :=
  "Email the instructor to confirm deadlines and ask what to prioritize first.".
Definition practice_block : string :=
  "Block 45–60 minutes daily for targeted practice on weak topics (quiz + review mistakes).".
Definition office_hours : string :=
  "Attend office hours or tutoring this week with 3 specific questions prepared.".
Definition restart_momentum : string :=
  "Log in today and complete one small task (discussion post, quiz attempt, or reading notes) to restart momentum.".
Definition easiest_first : string :=
  "Start with the easiest assignment to build confidence, then move to the next due item.".

(** [f"Why this plan: {', '.join(factors)}."] *)
Definition why_line (factors : list string) : string :=
  ("Why this plan: " ++ String.concat ", " factors ++ ".")%string.

(** What each of the six steps of [build_recommendations] appends. *)
Definition steps (thr : float) (missing_14d avg_grade_pct : Z) (days_inactive : float)
    (submitted_14d : Z) (risk_score : float) (factors : list string) : list (list string) :=
  [ if missing_14d >? 0 then [plan_48h; email_instructor] else [];
    if avg_grade_pct <? 80 then [practice_block; office_hours] else [];
    if Float64.ge days_inactive (Float64.of_Z 4) then [restart_momentum] else [];
    if Float64.ge risk_score thr then [weekly_schedule; active_recall] else [steady_pace];
    if submitted_14d =? 0 then [easiest_first] else [];
    match factors with [] => [] | _ :: _ => [why_line factors] end ].

Definition fixed_texts : list string :=
  [plan_48h; email_instructor; practice_block; office_hours; restart_momentum;
   weekly_schedule; active_recall; steady_pace; easiest_first].

(** Every text the builder can return for a factor list, in the order of
    its steps. *)
Definition texts_in_order (factors : list string) : list string :=
  fixed_texts ++ [why_line factors].

(** ** Rounding to decimals *)

(** The integer nearest to [n / d], a tie going to the even one. *)
Definition round_half_even (n d : Z) : Z :=
  let q := n / d in
  match 2 * (n mod d) ?= d with
  | Lt => q
  | Gt => q + 1
  | Eq => if Z.even q then q else q + 1
  end.

(** [round(x, ndigits)] of a float: the decimal with [ndigits] places nearest
    to the exact value of [x], ties to even, read back as a float.  Beyond 323
    places [x] is returned as it is, below -308 a zero of its sign, and a
    result too large for the format is an [OverflowError]. *)
Definition py_round (x : float) (ndigits : Z) : result float :=
  match x with
  | S754_finite s m e =>
      if 323 <? ndigits then Ok x
      else if ndigits <? -308 then Ok (S754_zero s)
      else
        let num := Zpos m * 2 ^ Z.max e 0 * 10 ^ Z.max ndigits 0 in
        let den := 2 ^ Z.max (- e) 0 * 10 ^ Z.max (- ndigits) 0 in
        match Float64.of_decimal s (round_half_even num den) (- ndigits) with
        | S754_infinity _ => Raise OverflowError
        | y => Ok y
        end
  | _ => Ok x
  end.

(** ** The handler *)

(** What the handler can raise: besides what the conversions raise, the
    [AttributeError] of a method call on a value that has no such method. *)
Inductive handler_exn : Type :=
  | AttributeError
  | Core (e : exn).

Inductive outcome (A : Type) : Type :=
  | Return (a : A)
  | Throw (e : handler_exn).

Arguments Return {A} a.
Arguments Throw {A} e.

#[global] Instance outcome_ret : MRet outcome := fun A a => Return a.
#[global] Instance outcome_bind : MBind outcome := fun A B f r =>
  match r with
  | Return a => f a
  | Throw e => Throw e
  end.

Definition lift {A} (r : result A) : outcome A :=
  match r with
  | Ok a => Return a
  | Raise e => Throw (Core e)
  end.

(** The truth value of [v], as [or] tests it. *)
Definition truthy (v : value) : bool :=
  match v with
  | VNone => false
  | VBool b => b
  | VInt z => negb (z =? 0)
  | VFloat (S754_zero _) => false
  | VFloat _ => true
  | VStr s => negb (String.eqb s "")
  | VList l => match l with [] => false | _ :: _ => true end
  | VDict d => negb (Nat.eqb (size d) 0)
  end.

(** [v.get(key, dflt)]: only a dict has the method. *)
Definition py_get (v : value) (key : string) (dflt : value) : outcome value :=
  match v with
  | VDict d => Return (get d key dflt)
  | _ => Throw AttributeError
  end.

(** [v == s] for a text [s]. *)
Definition eq_str (v : value) (s : string) : bool :=
  match v with
  | VStr t => String.eqb t s
  | _ => false
  end.

(** The order of [sorted] on texts. *)
Definition str_le (a b : string) : Prop := String.leb a b = true.

#[global] Instance str_le_dec (a b : string) : Decision (str_le a b).
Proof. unfold str_le. apply _. Defined.

(** [sorted(list(d.keys()))] *)
Definition sorted_keys (d : payload) : list string :=
  merge_sort str_le (elements (dom d)).

Section Handler.

(** [json.loads] on a text, [None] when it raises; [json.dumps] on a dict
    literal, its items in the order written. *)
Variable json_loads : string -> option value.
Variable json_dumps : list (string * value) -> string.

Variable RISK_THRESHOLD : float.

(** [int(time.time())] *)
Variable epoch : Z.

Definition _safe_json (body : value) : value :=
  match (if truthy body then body else VStr "{}") with
  | VStr s =>
      match json_loads s with
      | Some v => v
      | None => VDict ∅
      end
  | _ => VDict ∅
  end.

Definition response (status : Z) (body : list (string * value)) : value :=
  VDict {[ "statusCode"%string := VInt status;
           "headers"%string :=
             VDict {[ "Content-Type"%string := VStr "application/json";
                      "Access-Control-Allow-Origin"%string := VStr "*";
                      "Access-Control-Allow-Headers"%string := VStr "Content-Type,Authorization";
                      "Access-Control-Allow-Methods"%string := VStr "OPTIONS,POST" ]};
           "body"%string := VStr (json_dumps body) ]}.

(** The handler gives what it passed to [log.info], and what it returned
    or raised. *)
Definition lambda_handler (event : payload) (context : value)
    : list (list string) * outcome value :=
  match (http ← py_get (get event "requestContext" (VDict ∅)) "http" (VDict ∅);
         py_get http "method" VNone) with
  | Throw e => ([], Throw e)
  | Return method =>
      if eq_str method "OPTIONS" then
        ([], Return (response 200 [("ok"%string, VBool true)]))
      else
        match _safe_json (get event "body" (VStr "")) with
        | VDict p =>
            ([sorted_keys p],
             '(risk, factors) ← lift (compute_risk p);
             recs ← lift (build_recommendations RISK_THRESHOLD p risk factors);
             risk_score ← lift (py_round risk 3);
             let out :=
               [ ("ok"%string, VBool true);
                 ("risk_score"%string, VFloat risk_score);
                 ("risk_level"%string, VStr (risk_level RISK_THRESHOLD risk));
                 ("factors"%string, VList (VStr <$> factors));
                 ("recommendations"%string, VList (VStr <$> recs));
                 ("generated_at_epoch"%string, VInt epoch) ] in
             mret (response 200 out))
        | _ => ([], Throw AttributeError)
        end
  end.

End Handler.

(** ** Checks on the reported score *)

(** The same float, bit for bit (0.0 and -0.0 differ). *)
Definition same_float (x y : float) : bool :=
  match x, y with
  | S754_zero s, S754_zero s' => Bool.eqb s s'
  | S754_infinity s, S754_infinity s' => Bool.eqb s s'
  | S754_nan, S754_nan => true
  | S754_finite s m e, S754_finite s' m' e' => Bool.eqb s s' && Pos.eqb m m' && (e =? e')
  | _, _ => false
  end.

Definition hundredths : list Z := seqZ 0 101.

(** [round(s, 3)] is one of 0.0, 0.01, ..., 1.0. *)
Definition rounds_to_hundredth (s : float) : bool :=
  match py_round s 3 with
  | Ok r => existsb (fun k => same_float r (Float64.of_decimal false k (-2))) hundredths
  | Raise _ => false
  end.

(** [round(s, 3)] is on the side of the default threshold [s] is on. *)
Definition level_survives_rounding (s : float) : bool :=
  match py_round s 3 with
  | Ok r => Bool.eqb (Float64.ge s DEFAULT_RISK_THRESHOLD) (Float64.ge r DEFAULT_RISK_THRESHOLD)
  | Raise _ => false
  end.

(** ** A sample parser and printer

    Stand-ins for [json.loads] and [json.dumps], enough to run the handler
    on the examples: the parser knows the texts of the empty object, of a
    list and of an object with one signal, and rejects every other text. *)

(** The text of the object that binds [missing_14d] to 3. *)
Definition sample_body : string :=
  ("{" ++ String "034" "missing_14d" ++ String "034" ": 3}")%string.

Definition sample_loads (s : string) : option value :=
  if String.eqb s "{}" then Some (VDict ∅)
  else if String.eqb s "[1, 2]" then Some (VList [VInt 1; VInt 2])
  else if String.eqb s sample_body then Some (VDict {[ "missing_14d"%string := VInt 3 ]})
  else None.

Definition sample_dumps (body : list (string * value)) : string :=
  String.concat "," (fst <$> body).

(** ** Facts about the floats used *)

(** Closed equations between values of the model are settled by running
    both sides. *)
Ltac evaluate := repeat apply conj; vm_compute; reflexivity.

Lemma lit_bits :
  float_lit "0.0" = S754_zero false /\
  float_lit "0.08" = S754_finite false 5764607523034235 (-56) /\
  float_lit "0.10" = S754_finite false 7205759403792794 (-56) /\
  float_lit "0.15" = S754_finite false 5404319552844595 (-55) /\
  float_lit "0.18" = S754_finite false 6485183463413514 (-55) /\
  float_lit "0.20" = S754_finite false 7205759403792794 (-55) /\
  float_lit "0.25" = S754_finite false 4503599627370496 (-54) /\
  float_lit "0.30" = S754_finite false 5404319552844595 (-54) /\
  float_lit "0.35" = S754_finite false 6305039478318694 (-54) /\
  float_lit "0.75" = S754_finite false 6755399441055744 (-53) /\
  float_lit "1.0" = S754_finite false 4503599627370496 (-52).
Proof. evaluate. Qed.

Lemma lit_is_binary64 :
  forallb (fun s => Float64.is_binary64 (float_lit s))
    ["0.0"; "0.08"; "0.10"; "0.15"; "0.18"; "0.20"; "0.25"; "0.30"; "0.35"; "0.75"; "1.0"]%string
  = true.
Proof. vm_compute. reflexivity. Qed.

Lemma SFcompare_antisym (x y : float) :
  SFcompare x y = option_map CompOpp (SFcompare y x).
Proof.
  destruct x as [sx|sx| |sx mx ex], y as [sy|sy| |sy my ey]; simpl;
    try destruct sx; try destruct sy; simpl; try reflexivity.
  all: change (Pos.compare_cont Eq ?a ?b) with (Pos.compare a b).
  all: rewrite (Z.compare_antisym ex ey), (Pos.compare_antisym mx my).
  all: destruct (ex ?= ey), (mx ?= my)%positive; reflexivity.
Qed.

Lemma ge_le (x y : float) : Float64.ge x y = Float64.le y x.
Proof.
  unfold Float64.ge, Float64.le. rewrite (SFcompare_antisym y x).
  destruct (SFcompare x y) as [[]|]; reflexivity.
Qed.

Lemma le_trans (x y z : float) :
  Float64.le x y = true -> Float64.le y z = true -> Float64.le x z = true.
Proof.
  unfold Float64.le.
  destruct x as [sx|sx| |sx mx ex], y as [sy|sy| |sy my ey], z as [sz|sz| |sz mz ez];
    simpl; try destruct sx; try destruct sy; try destruct sz; simpl;
    try reflexivity; try discriminate.
  all: change (Pos.compare_cont Eq ?a ?b) with (Pos.compare a b).
  all: destruct (Z.compare_spec ex ey), (Z.compare_spec ey ez), (Z.compare_spec ex ez);
    simpl; try reflexivity; try discriminate; try lia.
  all: destruct (Pos.compare_spec mx my), (Pos.compare_spec my mz), (Pos.compare_spec mx mz);
    simpl; try reflexivity; try discriminate; try lia.
Qed.

Lemma ge_mono (c x y : float) :
  Float64.ge x c = true -> Float64.le x y = true -> Float64.ge y c = true.
Proof. rewrite !ge_le. intros Hc Hxy. exact (le_trans c x y Hc Hxy). Qed.

Lemma negative_not_ge (x c : float) :
  Float64.lt x (float_lit "0.0") = true ->
  Float64.le (float_lit "0.0") c = true ->
  Float64.ge x c = false.
Proof.
  rewrite (proj1 lit_bits), ge_le. unfold Float64.lt, Float64.le.
  destruct x as [sx|sx| |sx mx ex], c as [sc|sc| |sc mc ec];
    simpl; try destruct sx; try destruct sc; simpl;
    try reflexivity; try discriminate.
Qed.

(** ** Facts about the ladders *)

Lemma missing_rung (m : Z) : In (_missing_to_score m) missing_rungs.
Proof.
  unfold _missing_to_score, missing_rungs.
  destruct (m >=? 3); [simpl; tauto|].
  destruct (m =? 2); [simpl; tauto|].
  destruct (m =? 1); simpl; tauto.
Qed.

Lemma grade_rung (g : Z) : In (_grade_to_score g) grade_rungs.
Proof.
  unfold _grade_to_score, grade_rungs.
  destruct (g <? 70); [simpl; tauto|].
  destruct (g <? 80); [simpl; tauto|].
  destruct (g <? 85); simpl; tauto.
Qed.

Lemma inactive_rung (d : float) : In (_days_inactive_to_score d) inactive_rungs.
Proof.
  unfold _days_inactive_to_score, inactive_rungs.
  destruct (Float64.ge d (Float64.of_Z 7)); [simpl; tauto|].
  destruct (Float64.ge d (Float64.of_Z 4)); [simpl; tauto|].
  destruct (Float64.ge d (Float64.of_Z 2)); simpl; tauto.
Qed.

Lemma all_rungs_In chk a b c :
  all_rungs chk = true ->
  In a missing_rungs -> In b grade_rungs -> In c inactive_rungs ->
  chk a b c = true.
Proof.
  unfold all_rungs. intros H Ha Hb Hc.
  rewrite forallb_forall in H. specialize (H a Ha).
  rewrite forallb_forall in H. specialize (H b Hb).
  rewrite forallb_forall in H. exact (H c Hc).
Qed.

Lemma missing_mono (m1 m2 : Z) :
  m1 <= m2 ->
  Float64.le (fst (_missing_to_score m1)) (fst (_missing_to_score m2)) = true.
Proof.
  intros H. unfold _missing_to_score.
  destruct (Z.geb_spec m1 3), (Z.geb_spec m2 3); try lia;
    destruct (Z.eqb_spec m1 2), (Z.eqb_spec m2 2); try lia;
    destruct (Z.eqb_spec m1 1), (Z.eqb_spec m2 1); try lia;
    vm_compute; reflexivity.
Qed.

Lemma grade_mono (g1 g2 : Z) :
  g2 <= g1 ->
  Float64.le (fst (_grade_to_score g1)) (fst (_grade_to_score g2)) = true.
Proof.
  intros H. unfold _grade_to_score.
  destruct (Z.ltb_spec g1 70), (Z.ltb_spec g2 70); try lia;
    destruct (Z.ltb_spec g1 80), (Z.ltb_spec g2 80); try lia;
    destruct (Z.ltb_spec g1 85), (Z.ltb_spec g2 85); try lia;
    vm_compute; reflexivity.
Qed.

Lemma inactive_mono (d1 d2 : float) :
  Float64.le d1 d2 = true ->
  Float64.le (fst (_days_inactive_to_score d1)) (fst (_days_inactive_to_score d2)) = true.
Proof.
  intros H. unfold _days_inactive_to_score.
  pose proof (fun c => ge_mono c d1 d2) as Hm.
  destruct (Float64.ge d1 (Float64.of_Z 7)) eqn:H7.
  { rewrite (Hm _ H7 H). vm_compute. reflexivity. }
  destruct (Float64.ge d1 (Float64.of_Z 4)) eqn:H4.
  { rewrite (Hm _ H4 H). destruct (Float64.ge d2 (Float64.of_Z 7)); vm_compute; reflexivity. }
  destruct (Float64.ge d1 (Float64.of_Z 2)) eqn:H2.
  { rewrite (Hm _ H2 H).
    destruct (Float64.ge d2 (Float64.of_Z 7)), (Float64.ge d2 (Float64.of_Z 4));
      vm_compute; reflexivity. }
  destruct (Float64.ge d2 (Float64.of_Z 7)), (Float64.ge d2 (Float64.of_Z 4)),
    (Float64.ge d2 (Float64.of_Z 2)); vm_compute; reflexivity.
Qed.

(** ** The scorer through its signals *)

Lemma compute_risk_signals (p : payload) :
  compute_risk p = (x ← coerce_signals p; mret (risk_of_signals x)).
Proof.
  unfold compute_risk, coerce_signals.
  destruct (py_int (get p "missing_14d" (VInt 0))) as [m|e]; [|reflexivity].
  destruct (py_int (get p "avg_grade_pct" (VInt 0))) as [g|e]; [|reflexivity].
  destruct (py_float (get p "days_inactive" (VInt 0))) as [d|e]; [|reflexivity].
  simpl. unfold assemble.
  destruct (_missing_to_score m), (_grade_to_score g), (_days_inactive_to_score d).
  reflexivity.
Qed.

Lemma compute_risk_Ok (p : payload) (x : Z * Z * float) :
  coerce_signals p = Ok x -> compute_risk p = Ok (risk_of_signals x).
Proof. intros H. rewrite compute_risk_signals, H. reflexivity. Qed.

Lemma compute_risk_inv (p : payload) (r : float * list string) :
  compute_risk p = Ok r -> exists x, coerce_signals p = Ok x /\ r = risk_of_signals x.
Proof.
  rewrite compute_risk_signals. destruct (coerce_signals p) as [x|e]; simpl.
  - intros [= <-]. eauto.
  - discriminate.
Qed.

Lemma coerce_signals_signals (m g : Z) (d : float) :
  coerce_signals (signals m g d) = Ok (m, g, d).
Proof. reflexivity. Qed.

Lemma score_monotone (x1 x2 : Z * Z * float) :
  more_severe x1 x2 ->
  score_le (risk_of_signals x1) (risk_of_signals x2) = true.
Proof.
  intros [m1 m2 g d Hm | m g1 g2 d Hg | m g d1 d2 Hd]; simpl.
  - assert (Hall : all_rungs (fun a b c => forallb (fun a' =>
        implb (rung_le a a') (score_le (assemble a b c) (assemble a' b c))) missing_rungs) = true)
      by (vm_compute; reflexivity).
    pose proof (all_rungs_In _ _ _ _ Hall (missing_rung m1) (grade_rung g) (inactive_rung d)) as H.
    cbv beta in H.
    rewrite forallb_forall in H. specialize (H _ (missing_rung m2)).
    unfold rung_le in H. rewrite (missing_mono m1 m2 Hm) in H. exact H.
  - assert (Hall : all_rungs (fun a b c => forallb (fun b' =>
        implb (rung_le b b') (score_le (assemble a b c) (assemble a b' c))) grade_rungs) = true)
      by (vm_compute; reflexivity).
    pose proof (all_rungs_In _ _ _ _ Hall (missing_rung m) (grade_rung g1) (inactive_rung d)) as H.
    cbv beta in H.
    rewrite forallb_forall in H. specialize (H _ (grade_rung g2)).
    unfold rung_le in H. rewrite (grade_mono g1 g2 Hg) in H. exact H.
  - assert (Hall : all_rungs (fun a b c => forallb (fun c' =>
        implb (rung_le c c') (score_le (assemble a b c) (assemble a b c'))) inactive_rungs) = true)
      by (vm_compute; reflexivity).
    pose proof (all_rungs_In _ _ _ _ Hall (missing_rung m) (grade_rung g) (inactive_rung d1)) as H.
    cbv beta in H.
    rewrite forallb_forall in H. specialize (H _ (inactive_rung d2)).
    unfold rung_le in H. rewrite (inactive_mono d1 d2 Hd) in H. exact H.
Qed.

(** ** The conversions *)

Lemma coerce_signals_inv (p : payload) (m g : Z) (d : float) :
  coerce_signals p = Ok (m, g, d) ->
  py_int (get p "missing_14d" (VInt 0)) = Ok m /\
  py_int (get p "avg_grade_pct" (VInt 0)) = Ok g /\
  py_float (get p "days_inactive" (VInt 0)) = Ok d.
Proof.
  unfold coerce_signals.
  destruct (py_int (get p "missing_14d" (VInt 0))) as [m'|e]; [|discriminate].
  destruct (py_int (get p "avg_grade_pct" (VInt 0))) as [g'|e]; [|discriminate].
  destruct (py_float (get p "days_inactive" (VInt 0))) as [d'|e]; [|discriminate].
  simpl. intros [= -> -> ->]. auto.
Qed.

Lemma get_absent (p : payload) (key : string) (dflt : value) :
  p !! key = None -> get p key dflt = dflt.
Proof. unfold get. intros ->. reflexivity. Qed.









Lemma py_int_text (s : string) :
  py_int (VStr s) = match Text.to_int s with Some z => Ok z | None => Raise ValueError end.
Proof. reflexivity. Qed.

Example py_int_examples :
  py_int (VStr "72") = Ok 72 /\ py_int (VStr " -1_000 ") = Ok (-1000) /\
  py_int (VStr "n/a") = Raise ValueError /\ py_int (VStr "") = Raise ValueError /\
  py_int (VStr "7.5") = Raise ValueError /\
  py_int (VFloat (float_lit "7.9")) = Ok 7 /\ py_int (VFloat (float_lit "-7.9")) = Ok (-7) /\
  py_int (VFloat S754_nan) = Raise ValueError /\
  py_int (VFloat (S754_infinity false)) = Raise OverflowError /\
  py_int (VBool true) = Ok 1.
Proof. evaluate. Qed.

Example py_float_examples :
  py_float (VStr "5") = Ok (Float64.of_Z 5) /\ py_float (VStr "1e1") = Ok (Float64.of_Z 10) /\
  py_float (VStr " 2.5 ") = Ok (float_lit "2.5") /\
  py_float (VStr "nan") = Ok S754_nan /\ py_float (VStr "-Infinity") = Ok (S754_infinity true) /\
  py_float (VStr "n/a") = Raise ValueError /\ py_float (VStr "1_.5") = Raise ValueError /\
  py_float (VInt 8) = Ok (float_lit "8.0") /\
  py_float (VInt (2 ^ 1024)) = Raise OverflowError.
Proof. evaluate. Qed.

(** ** The claims *)

(** C1. Whenever the three scored signals of a payload convert (every key
    left out, or bound to a number, does), [compute_risk] returns, and the
    risk score it returns is at least 0.0 and at most 1.0. *)
Theorem compute_risk_score_in_unit_interval (p : payload) (x : Z * Z * float) :
  coerce_signals p = Ok x ->
  exists s fs, compute_risk p = Ok (s, fs) /\
    Float64.le (float_lit "0.0") s = true /\ Float64.le s (float_lit "1.0") = true.
Proof.
  intros Hx. rewrite (compute_risk_Ok p x Hx).
  assert (Hall : all_rungs (fun a b c => in_unit_interval (fst (assemble a b c))) = true)
    by (vm_compute; reflexivity).
  destruct x as [[m g] d].
  pose proof (all_rungs_In _ _ _ _ Hall (missing_rung m) (grade_rung g) (inactive_rung d)) as H.
  cbv beta in H. unfold risk_of_signals.
  destruct (assemble _ _ _) as [s fs]. exists s, fs.
  unfold in_unit_interval in H. cbn [fst] in H. apply andb_prop in H.
  split; [reflexivity | exact H].
Qed.

Lemma compute_risk_score_in_unit_interval_witness :
  exists s fs, compute_risk (signals 2 72 (float_lit "5.0")) = Ok (s, fs) /\
    Float64.le (float_lit "0.0") s = true /\ Float64.le s (float_lit "1.0") = true.
Proof.
  apply (compute_risk_score_in_unit_interval _ (2, 72, float_lit "5.0")).
  reflexivity.
Defined.

(** C2, as stated, fails. With no signal in the payload the grade defaults
    to 0, which is below 70: the score is 0.35 with one factor, and even with
    the score 0.0 and no factor the builder returns four texts, not one. *)
Lemma empty_signals_not_zero_risk :
  compute_risk ∅ = Ok (float_lit "0.35", ["Average grade < 70%"%string]) /\
  Float64.eqb (float_lit "0.35") (float_lit "0.0") = false /\
  build_recommendations DEFAULT_RISK_THRESHOLD ∅ (float_lit "0.0") [] =
    Ok [ "Block 45–60 minutes daily for targeted practice on weak topics (quiz + review mistakes)."%string;
         "Attend office hours or tutoring this week with 3 specific questions prepared."%string;
         steady_pace;
         "Start with the easiest assignment to build confidence, then move to the next due item."%string ].
Proof. evaluate. Qed.

(** C2, amended. For the empty payload (all four signals absent, so every
    default 0 applies) [compute_risk] returns the score 0.35 and the single
    factor "Average grade < 70%", and [build_recommendations], given that
    score and factor list under the default threshold, returns five texts:
    the two grade-practice texts, the steady-pace checkpoint, the
    start-with-easiest text and the "Why this plan" line. *)
Theorem empty_signals_scenario :
  compute_risk ∅ = Ok (float_lit "0.35", ["Average grade < 70%"%string]) /\
  build_recommendations DEFAULT_RISK_THRESHOLD ∅ (float_lit "0.35") ["Average grade < 70%"%string] =
    Ok [ "Block 45–60 minutes daily for targeted practice on weak topics (quiz + review mistakes)."%string;
         "Attend office hours or tutoring this week with 3 specific questions prepared."%string;
         "Keep current pace—set one weekly checkpoint to ensure no assignments are missed."%string;
         "Start with the easiest assignment to build confidence, then move to the next due item."%string;
         "Why this plan: Average grade < 70%."%string ].
Proof. evaluate. Qed.




(** C4. Of two payloads whose signals convert and differ in one signal
    only, the second being at least as severe (more missing assignments, a
    lower grade, or more days inactive), the second gets a risk score
    greater than or equal to the first's. *)
Theorem risk_score_monotone_in_severity (p1 p2 : payload) (x1 x2 : Z * Z * float) :
  coerce_signals p1 = Ok x1 ->
  coerce_signals p2 = Ok x2 ->
  more_severe x1 x2 ->
  exists s1 f1 s2 f2,
    compute_risk p1 = Ok (s1, f1) /\ compute_risk p2 = Ok (s2, f2) /\
    Float64.le s1 s2 = true.
Proof.
  intros H1 H2 Hsev.
  rewrite (compute_risk_Ok p1 x1 H1), (compute_risk_Ok p2 x2 H2).
  pose proof (score_monotone x1 x2 Hsev) as H. unfold score_le in H.
  destruct (risk_of_signals x1) as [s1 f1], (risk_of_signals x2) as [s2 f2].
  exists s1, f1, s2, f2. auto.
Qed.

Lemma risk_score_monotone_in_severity_witness :
  exists s1 f1 s2 f2,
    compute_risk (signals 2 72 (float_lit "5.0")) = Ok (s1, f1) /\
    compute_risk (signals 3 72 (float_lit "5.0")) = Ok (s2, f2) /\
    Float64.le s1 s2 = true.
Proof.
  apply (risk_score_monotone_in_severity _ _ (2, 72, float_lit "5.0") (3, 72, float_lit "5.0")).
  - reflexivity.
  - reflexivity.
  - apply more_missing. lia.
Defined.

(** C5. The grade ladder stops at the first band that matches: a grade of
    65 gives the factor "Average grade < 70%" alone, whatever the other
    signals it never comes with the "< 80%" or "< 85%" factor, and the
    grades 70, 80 and 85 fall into the less severe band (80 scores 0.10
    with "Average grade < 85%"). *)
Theorem grade_ladder_first_match :
  _grade_to_score 65 = (float_lit "0.35", Some "Average grade < 70%"%string) /\
  _grade_to_score 70 = (float_lit "0.20", Some "Average grade < 80%"%string) /\
  _grade_to_score 80 = (float_lit "0.10", Some "Average grade < 85%"%string) /\
  _grade_to_score 85 = (float_lit "0.0", None) /\
  compute_risk {[ "avg_grade_pct"%string := VInt 65 ]} =
    Ok (float_lit "0.35", ["Average grade < 70%"%string]) /\
  (forall (p : payload) (m : Z) (d : float),
     coerce_signals p = Ok (m, 65, d) ->
     exists s fs, compute_risk p = Ok (s, fs) /\
       In "Average grade < 70%"%string fs /\
       ~ In "Average grade < 80%"%string fs /\
       ~ In "Average grade < 85%"%string fs).
Proof.
  refine (conj _ (conj _ (conj _ (conj _ (conj _ _))))).
  1-5: vm_compute; reflexivity.
  intros p m d Hx. rewrite (compute_risk_Ok p _ Hx).
  assert (Hall : all_rungs (fun a _ c =>
      only_first_grade_factor (snd (assemble a (_grade_to_score 65) c))) = true)
    by (vm_compute; reflexivity).
  pose proof (all_rungs_In _ _ _ _ Hall (missing_rung m) (grade_rung 65) (inactive_rung d)) as H.
  cbv beta in H. unfold risk_of_signals.
  destruct (assemble _ _ _) as [s fs]. exists s, fs. cbn [snd] in H.
  unfold only_first_grade_factor, mem in H.
  apply andb_prop in H. destruct H as [H H85]. apply andb_prop in H. destruct H as [H70 H80].
  split; [reflexivity|]. split; [|split].
  - apply existsb_exists in H70. destruct H70 as (f & Hf & Heq).
    apply String.eqb_eq in Heq. subst f. exact Hf.
  - intros Hin. apply negb_true_iff in H80.
    rewrite <- not_true_iff_false in H80. apply H80.
    apply existsb_exists. exists "Average grade < 80%"%string.
    split; [exact Hin | apply String.eqb_refl].
  - intros Hin. apply negb_true_iff in H85.
    rewrite <- not_true_iff_false in H85. apply H85.
    apply existsb_exists. exists "Average grade < 85%"%string.
    split; [exact Hin | apply String.eqb_refl].
Qed.

Lemma grade_ladder_first_match_witness :
  exists s fs, compute_risk (signals 2 65 (float_lit "5.0")) = Ok (s, fs) /\
    In "Average grade < 70%"%string fs /\
    ~ In "Average grade < 80%"%string fs /\
    ~ In "Average grade < 85%"%string fs.
Proof.
  destruct grade_ladder_first_match as (_ & _ & _ & _ & _ & H).
  apply (H _ 2 (float_lit "5.0")). reflexivity.
Defined.

(** C6. For [{missing_14d: 3, avg_grade_pct: 60, days_inactive: 8,
    submitted_14d: 0}] the three partial scores are 0.35, 0.35 and 0.30,
    their sum is 1.0 and so is the risk score; under the default threshold
    the risk level is "HIGH" and the recommendations are, in this order, the
    two missing-assignments texts, the two grade-practice texts, the
    momentum-restart text, the weekly-schedule and active-recall texts, the
    start-with-easiest text and the "Why this plan" line. *)
Theorem scenario_B_result :
  _missing_to_score 3 = (float_lit "0.35", Some "3+ missing assignments (14d)"%string) /\
  _grade_to_score 60 = (float_lit "0.35", Some "Average grade < 70%"%string) /\
  _days_inactive_to_score (Float64.of_Z 8) = (float_lit "0.30", Some "Inactive 7+ days"%string) /\
  Float64.add (Float64.add (float_lit "0.35") (float_lit "0.35")) (float_lit "0.30")
    = float_lit "1.0" /\
  compute_risk scenario_B =
    Ok (float_lit "1.0",
        ["3+ missing assignments (14d)"; "Average grade < 70%"; "Inactive 7+ days"]%string) /\
  risk_level DEFAULT_RISK_THRESHOLD (float_lit "1.0") = "HIGH"%string /\
  build_recommendations DEFAULT_RISK_THRESHOLD scenario_B (float_lit "1.0")
      ["3+ missing assignments (14d)"; "Average grade < 70%"; "Inactive 7+ days"]%string =
    Ok [ "Make a 48-hour plan to complete the missing assignments (start with the highest-weight items).";
         "Email the instructor to confirm deadlines and ask what to prioritize first.";
         "Block 45–60 minutes daily for targeted practice on weak topics (quiz + review mistakes).";
         "Attend office hours or tutoring this week with 3 specific questions prepared.";
         "Log in today and complete one small task (discussion post, quiz attempt, or reading notes) to restart momentum.";
         "Create a weekly schedule: 3 study sessions + 1 catch-up session, and track completion.";
         "Use active recall: summarize each module in 5 bullets, then self-test without notes.";
         "Start with the easiest assignment to build confidence, then move to the next due item.";
         "Why this plan: 3+ missing assignments (14d), Average grade < 70%, Inactive 7+ days."
       ]%string.
Proof. evaluate. Qed.

(** C7. Two payloads that carry the same four signals get the same
    (score, factors) pair from [compute_risk] and, for the same threshold,
    score and factor list, the same recommendations from
    [build_recommendations]: both are functions of the signals and of
    their arguments alone, no clock and no random source is read. *)
Theorem same_signals_same_results (thr : float) (p1 p2 : payload) (risk : float)
    (factors : list string) :
  (forall key, In key signal_keys -> p1 !! key = p2 !! key) ->
  compute_risk p1 = compute_risk p2 /\
  build_recommendations thr p1 risk factors = build_recommendations thr p2 risk factors.
Proof.
  intros H.
  assert (Hget : forall key, In key signal_keys -> get p1 key (VInt 0) = get p2 key (VInt 0)).
  { intros key Hkey. unfold get. rewrite (H key Hkey). reflexivity. }
  unfold compute_risk, build_recommendations.
  rewrite (Hget "missing_14d"%string), (Hget "avg_grade_pct"%string),
    (Hget "days_inactive"%string), (Hget "submitted_14d"%string);
    unfold signal_keys; cbn [In]; auto 6.
Qed.

Lemma same_signals_same_results_witness :
  compute_risk scenario_B = compute_risk (<[ "student_token"%string := VStr "abc123" ]> scenario_B) /\
  build_recommendations DEFAULT_RISK_THRESHOLD scenario_B (float_lit "1.0") [] =
  build_recommendations DEFAULT_RISK_THRESHOLD
    (<[ "student_token"%string := VStr "abc123" ]> scenario_B) (float_lit "1.0") [].
Proof.
  apply same_signals_same_results.
  intros key [<- | [<- | [<- | [<- | []]]]]; vm_compute; reflexivity.
Defined.

(** C8. Whenever the three scored signals of a payload convert,
    [compute_risk] returns a pair whose factor list has at most three
    entries and is empty exactly when the risk score equals 0.0. *)
Theorem factors_empty_iff_score_zero (p : payload) (x : Z * Z * float) :
  coerce_signals p = Ok x ->
  exists s fs, compute_risk p = Ok (s, fs) /\
    (length fs <= 3)%nat /\
    (fs = [] <-> Float64.eqb s (float_lit "0.0") = true).
Proof.
  intros Hx. rewrite (compute_risk_Ok p x Hx).
  assert (Hall : all_rungs (fun a b c => factors_match_score (assemble a b c)) = true)
    by (vm_compute; reflexivity).
  destruct x as [[m g] d].
  pose proof (all_rungs_In _ _ _ _ Hall (missing_rung m) (grade_rung g) (inactive_rung d)) as H.
  cbv beta in H. unfold risk_of_signals.
  destruct (assemble _ _ _) as [s fs]. exists s, fs.
  unfold factors_match_score in H. cbn [fst snd] in H.
  apply andb_prop in H. destruct H as [Hlen Heq].
  apply Nat.leb_le in Hlen. apply Bool.eqb_prop in Heq.
  split; [reflexivity|]. split; [exact Hlen|].
  destruct fs; rewrite <- Heq; split; intros; congruence.
Qed.

Lemma factors_empty_iff_score_zero_witness :
  exists s fs, compute_risk (signals 0 90 (float_lit "1.5")) = Ok (s, fs) /\
    (length fs <= 3)%nat /\
    (fs = [] <-> Float64.eqb s (float_lit "0.0") = true).
Proof.
  apply (factors_empty_iff_score_zero _ (0, 90, float_lit "1.5")).
  reflexivity.
Defined.

(** C9. A negative count of missing assignments and a negative number of
    days inactive score 0.0 with no factor, while a negative grade falls
    into the first band of the grade ladder, which has no lower bound: it
    scores 0.35 with the factor "Average grade < 70%". *)
Theorem negative_signals :
  (forall m : Z, m < 0 -> _missing_to_score m = (float_lit "0.0", None)) /\
  (forall d : float, Float64.lt d (float_lit "0.0") = true ->
     _days_inactive_to_score d = (float_lit "0.0", None)) /\
  (forall g : Z, g < 0 ->
     _grade_to_score g = (float_lit "0.35", Some "Average grade < 70%"%string)).
Proof.
  refine (conj _ (conj _ _)).
  - intros m Hm. unfold _missing_to_score.
    destruct (Z.geb_spec m 3); [lia|].
    destruct (Z.eqb_spec m 2); [lia|].
    destruct (Z.eqb_spec m 1); [lia|]. reflexivity.
  - intros d Hd. unfold _days_inactive_to_score.
    rewrite !(negative_not_ge d _ Hd) by (vm_compute; reflexivity). reflexivity.
  - intros g Hg. unfold _grade_to_score.
    destruct (Z.ltb_spec g 70); [reflexivity | lia].
Qed.

Lemma negative_signals_witness :
  _missing_to_score (-1) = (float_lit "0.0", None) /\
  _days_inactive_to_score (float_lit "-1.5") = (float_lit "0.0", None) /\
  _grade_to_score (-5) = (float_lit "0.35", Some "Average grade < 70%"%string).
Proof.
  destruct negative_signals as (Hm & Hd & Hg).
  refine (conj _ (conj _ _)).
  - apply Hm. lia.
  - apply Hd. vm_compute. reflexivity.
  - apply Hg. lia.
Defined.

(** C10. Whenever the four signals of a payload convert,
    [build_recommendations] returns a list that is not empty, for every
    threshold, risk score and factor list: the study-plan step runs one of
    its two branches, and the list holds either the weekly-schedule and
    active-recall texts ([risk_score >= RISK_THRESHOLD]) or the steady-pace
    text (otherwise), never both. *)
Theorem build_recommendations_nonempty (thr : float) (p : payload) (risk : float)
    (factors : list string) (x : Z * Z * float) (submitted_14d : Z) :
  coerce_signals p = Ok x ->
  py_int (get p "submitted_14d" (VInt 0)) = Ok submitted_14d ->
  exists recs, build_recommendations thr p risk factors = Ok recs /\
    recs <> [] /\
    if Float64.ge risk thr
    then In weekly_schedule recs /\ In active_recall recs /\ ~ In steady_pace recs
    else In steady_pace recs /\ ~ In weekly_schedule recs /\ ~ In active_recall recs.
Proof.
  destruct x as [[m g] d]. intros Hx Hsub.
  destruct (coerce_signals_inv p m g d Hx) as (Hm & Hg & Hd).
  unfold build_recommendations. rewrite Hm, Hg, Hd, Hsub.
  cbv beta iota delta [mbind result_bind mret result_ret].
  destruct (m >? 0), (g <? 80), (Float64.ge d (Float64.of_Z 4)),
    (Float64.ge risk thr), (submitted_14d =? 0), factors as [|f fs];
    cbv beta iota zeta delta [app].
  all: eexists; (split; [reflexivity|]); (split; [discriminate|]);
    unfold weekly_schedule, active_recall, steady_pace; cbv [In].
  all: repeat match goal with
    | |- _ /\ _ => split
    | |- ~ _ => intros Hin;
        repeat (destruct Hin as [Hin|Hin]; [discriminate Hin|]); exact Hin
    | |- _ => auto 12
    end.
Qed.

Lemma build_recommendations_nonempty_witness :
  exists recs,
    build_recommendations DEFAULT_RISK_THRESHOLD scenario_B (float_lit "1.0") [] = Ok recs /\
    recs <> [] /\
    if Float64.ge (float_lit "1.0") DEFAULT_RISK_THRESHOLD
    then In weekly_schedule recs /\ In active_recall recs /\ ~ In steady_pace recs
    else In steady_pace recs /\ ~ In weekly_schedule recs /\ ~ In active_recall recs.
Proof.
  apply (build_recommendations_nonempty _ scenario_B _ _ (3, 60, Float64.of_Z 8) 0).
  - vm_compute. reflexivity.
  - vm_compute. reflexivity.
Defined.

(** ** More about the scorer *)

Lemma mem_In (s : string) (l : list string) : mem s l = true <-> In s l.
Proof.
  unfold mem. rewrite existsb_exists. split.
  - intros (x & Hx & Heq). apply String.eqb_eq in Heq. subst x. exact Hx.
  - intros Hin. exists s. split; [exact Hin | apply String.eqb_refl].
Qed.

(** Replaces each closed [mem] test of the goal by its value. *)
Ltac run_mem :=
  repeat match goal with
  | |- context [mem ?s ?l] =>
      let v := eval vm_compute in (mem s l) in
      change (mem s l) with v
  end.

(** Likewise for the closed applications of a function of two arguments. *)
Ltac run_on f :=
  repeat match goal with
  | |- context [f ?a ?b] =>
      let v := eval vm_compute in (f a b) in
      change (f a b) with v
  end.

(** The bands of the three ladders, case by case. *)
Ltac bands m g d :=
  unfold _missing_to_score, _grade_to_score, _days_inactive_to_score;
  destruct (Z.geb_spec m 3); [|destruct (Z.eqb_spec m 2); [|destruct (Z.eqb_spec m 1)]];
  (destruct (Z.ltb_spec g 70); [|destruct (Z.ltb_spec g 80); [|destruct (Z.ltb_spec g 85)]]);
  (destruct (Float64.ge d (Float64.of_Z 7)) eqn:?;
    [|destruct (Float64.ge d (Float64.of_Z 4)) eqn:?;
      [|destruct (Float64.ge d (Float64.of_Z 2)) eqn:?]]).

Lemma ge_4_of_7 (d : float) :
  Float64.ge d (Float64.of_Z 7) = true -> Float64.ge d (Float64.of_Z 4) = true.
Proof.
  rewrite !ge_le. intros H.
  apply (le_trans _ (Float64.of_Z 7)); [vm_compute; reflexivity | exact H].
Qed.

Lemma ge_2_of_4 (d : float) :
  Float64.ge d (Float64.of_Z 4) = true -> Float64.ge d (Float64.of_Z 2) = true.
Proof.
  rewrite !ge_le. intros H.
  apply (le_trans _ (Float64.of_Z 4)); [vm_compute; reflexivity | exact H].
Qed.

Lemma le_lt_not_ge (x y z : float) :
  Float64.le x y = true -> Float64.lt y z = true -> Float64.ge x z = false.
Proof.
  unfold Float64.le, Float64.lt, Float64.ge.
  destruct x as [sx|sx| |sx mx ex], y as [sy|sy| |sy my ey], z as [sz|sz| |sz mz ez];
    simpl; try destruct sx; try destruct sy; try destruct sz; simpl;
    try reflexivity; try discriminate.
  all: change (Pos.compare_cont Eq ?a ?b) with (Pos.compare a b).
  all: destruct (Z.compare_spec ex ey), (Z.compare_spec ey ez), (Z.compare_spec ex ez);
    simpl; try reflexivity; try discriminate; try lia.
  all: destruct (Pos.compare_spec mx my), (Pos.compare_spec my mz), (Pos.compare_spec mx mz);
    simpl; try reflexivity; try discriminate; try lia.
Qed.

Lemma risk_of_signals_bounds (x : Z * Z * float) :
  Float64.le (float_lit "0.0") (fst (risk_of_signals x)) = true /\
  Float64.le (fst (risk_of_signals x)) (float_lit "1.0") = true.
Proof.
  assert (Hall : all_rungs (fun a b c => in_unit_interval (fst (assemble a b c))) = true)
    by (vm_compute; reflexivity).
  destruct x as [[m g] d].
  pose proof (all_rungs_In _ _ _ _ Hall (missing_rung m) (grade_rung g) (inactive_rung d)) as H.
  cbv beta in H. unfold in_unit_interval in H. apply andb_prop in H. exact H.
Qed.

(** The factor each band of each ladder lists. *)
Lemma factors_by_band (m g : Z) (d : float) (fs : list string) :
  fs = snd (risk_of_signals (m, g, d)) ->
  (In "3+ missing assignments (14d)"%string fs <-> 3 <= m) /\
  (In "2 missing assignments (14d)"%string fs <-> m = 2) /\
  (In "1 missing assignment (14d)"%string fs <-> m = 1) /\
  (In "Average grade < 70%"%string fs <-> g < 70) /\
  (In "Average grade < 80%"%string fs <-> 70 <= g < 80) /\
  (In "Average grade < 85%"%string fs <-> 80 <= g < 85) /\
  (In "Inactive 7+ days"%string fs <-> Float64.ge d (Float64.of_Z 7) = true) /\
  (In "Inactive 4+ days"%string fs <->
     Float64.ge d (Float64.of_Z 4) = true /\ Float64.ge d (Float64.of_Z 7) = false) /\
  (In "Inactive 2+ days"%string fs <->
     Float64.ge d (Float64.of_Z 2) = true /\ Float64.ge d (Float64.of_Z 4) = false).
Proof.
  intros ->. unfold risk_of_signals, assemble. cbn [snd].
  rewrite <- !mem_In.
  pose proof (ge_4_of_7 d) as H47. pose proof (ge_2_of_4 d) as H24.
  bands m g d; run_mem;
    repeat match goal with
    | |- _ /\ _ => split
    | |- _ <-> _ => split; intros
    | H : _ /\ _ |- _ => destruct H
    | |- ?x = ?x => reflexivity
    | H : ?a = true, H' : ?a = true -> _ |- _ => specialize (H' H)
    | H : true = true -> _ |- _ => specialize (H eq_refl)
    | H : false = true |- _ => discriminate H
    | H : true = false |- _ => discriminate H
    | H : ?b = true, H' : ?b = false |- _ => rewrite H in H'; discriminate H'
    | |- _ => lia
    end.
Qed.

(** X1. Whenever the three scored signals of a payload convert, the score
    [compute_risk] returns is the plain binary64 sum 0.0 + s1 + s2 + s3 of
    the three partial scores, added in the order missing, grade,
    inactivity: the clamp [min(score, 1.0)] never changes it. *)
Theorem score_is_plain_sum (p : payload) (m g : Z) (d : float) :
  coerce_signals p = Ok (m, g, d) ->
  exists fs, compute_risk p =
    Ok (Float64.add (Float64.add (Float64.add (float_lit "0.0") (fst (_missing_to_score m)))
                                 (fst (_grade_to_score g)))
                    (fst (_days_inactive_to_score d)), fs).
Proof.
  intros Hx. rewrite (compute_risk_Ok p _ Hx). unfold risk_of_signals, assemble.
  eexists. f_equal. f_equal.
  destruct (missing_rung m) as [Hm|[Hm|[Hm|[Hm|[]]]]]; rewrite <- Hm;
  destruct (grade_rung g) as [Hg|[Hg|[Hg|[Hg|[]]]]]; rewrite <- Hg;
  destruct (inactive_rung d) as [Hd|[Hd|[Hd|[Hd|[]]]]]; rewrite <- Hd;
  vm_compute; reflexivity.
Qed.

Lemma score_is_plain_sum_witness :
  exists fs, compute_risk (signals 3 60 (float_lit "8.0")) =
    Ok (Float64.add (Float64.add (Float64.add (float_lit "0.0") (fst (_missing_to_score 3)))
                                 (fst (_grade_to_score 60)))
                    (fst (_days_inactive_to_score (float_lit "8.0"))), fs).
Proof. apply (score_is_plain_sum _ 3 60 (float_lit "8.0")). reflexivity. Defined.

(** X2. Whenever the three scored signals convert, the risk score equals
    1.0 exactly when each signal is in its worst band: at least 3 missing
    assignments, a grade below 70 and at least 7 days inactive. *)
Theorem full_score_iff_worst_bands (p : payload) (m g : Z) (d : float) :
  coerce_signals p = Ok (m, g, d) ->
  exists s fs, compute_risk p = Ok (s, fs) /\
    (Float64.eqb s (float_lit "1.0") = true <->
     3 <= m /\ g < 70 /\ Float64.ge d (Float64.of_Z 7) = true).
Proof.
  intros Hx. rewrite (compute_risk_Ok p _ Hx). unfold risk_of_signals, assemble.
  eexists _, _. split; [reflexivity|].
  bands m g d; run_on Float64.eqb;
    (split; [intros Hone; try discriminate Hone; repeat split; try lia
            | intros (Hm & Hg & Hd); try reflexivity; try lia; try discriminate Hd]).
Qed.

Lemma full_score_iff_worst_bands_witness :
  exists s fs, compute_risk (signals 3 60 (float_lit "8.0")) = Ok (s, fs) /\
    (Float64.eqb s (float_lit "1.0") = true <->
     3 <= 3 /\ 60 < 70 /\ Float64.ge (float_lit "8.0") (Float64.of_Z 7) = true).
Proof. apply (full_score_iff_worst_bands (signals 3 60 (float_lit "8.0"))). reflexivity. Defined.

(** X3. Whenever the three scored signals convert, each of the nine
    factor labels is in the factor list exactly when its signal is in the
    label's band: "3+ missing" for 3 or more, "2 missing" for exactly 2,
    "1 missing" for exactly 1; "< 70%" below 70, "< 80%" from 70 up to 79,
    "< 85%" from 80 up to 84; "7+ days" from 7 days on, "4+ days" from 4 up
    to less than 7, "2+ days" from 2 up to less than 4. *)
Theorem factor_listed_iff_band (p : payload) (m g : Z) (d : float) :
  coerce_signals p = Ok (m, g, d) ->
  exists s fs, compute_risk p = Ok (s, fs) /\
    (In "3+ missing assignments (14d)"%string fs <-> 3 <= m) /\
    (In "2 missing assignments (14d)"%string fs <-> m = 2) /\
    (In "1 missing assignment (14d)"%string fs <-> m = 1) /\
    (In "Average grade < 70%"%string fs <-> g < 70) /\
    (In "Average grade < 80%"%string fs <-> 70 <= g < 80) /\
    (In "Average grade < 85%"%string fs <-> 80 <= g < 85) /\
    (In "Inactive 7+ days"%string fs <-> Float64.ge d (Float64.of_Z 7) = true) /\
    (In "Inactive 4+ days"%string fs <->
       Float64.ge d (Float64.of_Z 4) = true /\ Float64.ge d (Float64.of_Z 7) = false) /\
    (In "Inactive 2+ days"%string fs <->
       Float64.ge d (Float64.of_Z 2) = true /\ Float64.ge d (Float64.of_Z 4) = false).
Proof.
  intros Hx. rewrite (compute_risk_Ok p _ Hx).
  exists (fst (risk_of_signals (m, g, d))), (snd (risk_of_signals (m, g, d))).
  split; [destruct (risk_of_signals (m, g, d)); reflexivity|].
  apply factors_by_band. reflexivity.
Qed.

Lemma factor_listed_iff_band_witness :
  exists s fs, compute_risk (signals 2 72 (float_lit "5.0")) = Ok (s, fs) /\
    (In "3+ missing assignments (14d)"%string fs <-> 3 <= 2) /\
    (In "2 missing assignments (14d)"%string fs <-> 2 = 2) /\
    (In "1 missing assignment (14d)"%string fs <-> 2 = 1) /\
    (In "Average grade < 70%"%string fs <-> 72 < 70) /\
    (In "Average grade < 80%"%string fs <-> 70 <= 72 < 80) /\
    (In "Average grade < 85%"%string fs <-> 80 <= 72 < 85) /\
    (In "Inactive 7+ days"%string fs <->
       Float64.ge (float_lit "5.0") (Float64.of_Z 7) = true) /\
    (In "Inactive 4+ days"%string fs <->
       Float64.ge (float_lit "5.0") (Float64.of_Z 4) = true /\
       Float64.ge (float_lit "5.0") (Float64.of_Z 7) = false) /\
    (In "Inactive 2+ days"%string fs <->
       Float64.ge (float_lit "5.0") (Float64.of_Z 2) = true /\
       Float64.ge (float_lit "5.0") (Float64.of_Z 4) = false).
Proof. apply (factor_listed_iff_band (signals 2 72 (float_lit "5.0"))). reflexivity. Defined.

(** X4. Under the default threshold 0.75 a payload is rated "HIGH" only
    if all three signals contribute: the factor list then has three
    entries, there is at least 1 missing assignment, the grade is below 85
    and the student has been inactive for at least 2 days. *)
Theorem high_needs_every_signal (p : payload) (m g : Z) (d : float) :
  coerce_signals p = Ok (m, g, d) ->
  exists s fs, compute_risk p = Ok (s, fs) /\
    (risk_level DEFAULT_RISK_THRESHOLD s = "HIGH"%string ->
     length fs = 3%nat /\ 1 <= m /\ g < 85 /\ Float64.ge d (Float64.of_Z 2) = true).
Proof.
  intros Hx. rewrite (compute_risk_Ok p _ Hx). unfold risk_of_signals, assemble.
  eexists _, _. split; [reflexivity|].
  bands m g d; run_on risk_level; intros Hhigh; try discriminate Hhigh;
    (split; [reflexivity|]); (split; [lia|]); (split; [lia|]);
    auto using ge_4_of_7, ge_2_of_4.
Qed.

Lemma high_needs_every_signal_witness :
  exists s fs, compute_risk (signals 3 60 (float_lit "8.0")) = Ok (s, fs) /\
    (risk_level DEFAULT_RISK_THRESHOLD s = "HIGH"%string ->
     length fs = 3%nat /\ 1 <= 3 /\ 60 < 85 /\
     Float64.ge (float_lit "8.0") (Float64.of_Z 2) = true).
Proof. apply (high_needs_every_signal (signals 3 60 (float_lit "8.0"))). reflexivity. Defined.

(** X5. For a score returned by [compute_risk], a threshold above 1.0, or
    one that is not a number, makes the risk level "LOW" whatever the
    signals, and a threshold of 0.0 or less makes it "HIGH" whatever the
    signals. *)
Theorem threshold_out_of_range (thr : float) (p : payload) (s : float) (fs : list string) :
  compute_risk p = Ok (s, fs) ->
  (Float64.lt (float_lit "1.0") thr = true -> risk_level thr s = "LOW"%string) /\
  (thr = S754_nan -> risk_level thr s = "LOW"%string) /\
  (Float64.le thr (float_lit "0.0") = true -> risk_level thr s = "HIGH"%string).
Proof.
  intros Hrisk. destruct (compute_risk_inv p _ Hrisk) as (x & _ & Hs).
  destruct (risk_of_signals_bounds x) as [H0 H1]. rewrite <- Hs in H0, H1.
  cbn [fst] in H0, H1. unfold risk_level. split; [|split].
  - intros Hthr. rewrite (le_lt_not_ge _ _ _ H1 Hthr). reflexivity.
  - intros ->. unfold Float64.ge. destruct s as [ss|ss| |ss ms es]; reflexivity.
  - intros Hthr. rewrite ge_le, (le_trans _ _ _ Hthr H0). reflexivity.
Qed.

Lemma threshold_out_of_range_witness :
  risk_level (float_lit "1.5") (float_lit "1.0") = "LOW"%string /\
  risk_level (float_lit "0.0") (float_lit "0.35") = "HIGH"%string.
Proof.
  split.
  - assert (Hrisk : compute_risk scenario_B = Ok (float_lit "1.0",
        ["3+ missing assignments (14d)"; "Average grade < 70%"; "Inactive 7+ days"]%string))
      by (vm_compute; reflexivity).
    destruct (threshold_out_of_range (float_lit "1.5") _ _ _ Hrisk) as (Habove & _ & _).
    apply Habove. vm_compute. reflexivity.
  - assert (Hrisk : compute_risk ∅ = Ok (float_lit "0.35", ["Average grade < 70%"%string]))
      by (vm_compute; reflexivity).
    destruct (threshold_out_of_range (float_lit "0.0") _ _ _ Hrisk) as (_ & _ & Hbelow).
    apply Hbelow. vm_compute. reflexivity.
Defined.

(** ** The builder, step by step *)

Lemma build_recommendations_steps (thr : float) (p : payload) (risk : float)
    (factors : list string) (m g : Z) (d : float) (sub : Z) :
  coerce_signals p = Ok (m, g, d) ->
  py_int (get p "submitted_14d" (VInt 0)) = Ok sub ->
  build_recommendations thr p risk factors =
    Ok (List.concat (steps thr m g d sub risk factors)).
Proof.
  intros Hx Hsub.
  destruct (coerce_signals_inv p m g d Hx) as (Hm & Hg & Hd).
  unfold build_recommendations. rewrite Hm, Hg, Hd, Hsub.
  cbv beta iota delta [mbind result_bind mret result_ret steps List.concat app].
  destruct (m >? 0), (g <? 80), (Float64.ge d (Float64.of_Z 4)),
    (Float64.ge risk thr), (sub =? 0), factors as [|f fs]; reflexivity.
Qed.

Lemma build_recommendations_raises (thr : float) (p : payload) (risk : float)
    (factors : list string) (x : Z * Z * float) (e : exn) :
  coerce_signals p = Ok x ->
  py_int (get p "submitted_14d" (VInt 0)) = Raise e ->
  build_recommendations thr p risk factors = Raise e.
Proof.
  intros Hx Hsub. destruct x as [[m g] d].
  destruct (coerce_signals_inv p m g d Hx) as (Hm & Hg & Hd).
  unfold build_recommendations. rewrite Hm, Hg, Hd, Hsub. reflexivity.
Qed.

Lemma build_recommendations_inv (thr : float) (p : payload) (risk : float)
    (factors recs : list string) (m g : Z) (d : float) :
  coerce_signals p = Ok (m, g, d) ->
  build_recommendations thr p risk factors = Ok recs ->
  exists sub, py_int (get p "submitted_14d" (VInt 0)) = Ok sub /\
    recs = List.concat (steps thr m g d sub risk factors).
Proof.
  intros Hx Hrecs.
  destruct (py_int (get p "submitted_14d" (VInt 0))) as [sub|e] eqn:Hsub.
  - rewrite (build_recommendations_steps thr p risk factors m g d sub Hx Hsub) in Hrecs.
    injection Hrecs as <-. eauto.
  - rewrite (build_recommendations_raises thr p risk factors _ e Hx Hsub) in Hrecs.
    discriminate Hrecs.
Qed.

Lemma why_line_head (factors : list string) :
  exists rest, why_line factors = String "W" rest.
Proof. eexists. reflexivity. Qed.

Lemma in_if (b : bool) (l1 l2 : list string) (t : string) :
  In t (if b then l1 else l2) <-> (b = true /\ In t l1) \/ (b = false /\ In t l2).
Proof. destruct b; intuition discriminate. Qed.

(** A text is returned exactly when a step whose condition holds appends it. *)
Lemma in_steps (thr : float) (m g : Z) (d : float) (sub : Z) (risk : float)
    (factors : list string) (t : string) :
  In t (List.concat (steps thr m g d sub risk factors)) <->
    (0 < m /\ In t [plan_48h; email_instructor]) \/
    (g < 80 /\ In t [practice_block; office_hours]) \/
    (Float64.ge d (Float64.of_Z 4) = true /\ In t [restart_momentum]) \/
    (Float64.ge risk thr = true /\ In t [weekly_schedule; active_recall]) \/
    (Float64.ge risk thr = false /\ In t [steady_pace]) \/
    (sub = 0 /\ In t [easiest_first]) \/
    (factors <> [] /\ In t [why_line factors]).
Proof.
  unfold steps. cbv beta iota delta [List.concat]. rewrite !in_app_iff, !in_if.
  rewrite Z.gtb_lt, Z.ltb_lt, Z.eqb_eq.
  assert (Hw : In t match factors with [] => [] | _ :: _ => [why_line factors] end <->
               factors <> [] /\ In t [why_line factors]).
  { destruct factors; cbn [In]; intuition discriminate. }
  rewrite Hw. cbn [In]. tauto.
Qed.

(** The texts of the builder differ from one another in their first
    letter. *)
Ltac spell_texts :=
  unfold plan_48h, email_instructor, practice_block, office_hours, restart_momentum,
    weekly_schedule, active_recall, steady_pace, easiest_first in *.

(** Settles [In t (concat (steps ...)) <-> c] for a text [t] of the builder
    and the condition [c] of its step. *)
Ltac text_iff factors :=
  rewrite in_steps; cbn [In];
  let w := fresh "w" in let Hw := fresh "Hw" in
  destruct (why_line_head factors) as [w Hw]; rewrite ?Hw; spell_texts;
  split;
  [ intros [[? [E|[E|[]]]]|[[? [E|[E|[]]]]|[[? [E|[]]]|[[? [E|[E|[]]]]|
            [[? [E|[]]]|[[? [E|[]]]|[? [E|[]]]]]]]]];
    try discriminate E; assumption
  | intros ?; tauto ].

Lemma texts_NoDup (factors : list string) : NoDup (texts_in_order factors).
Proof.
  unfold texts_in_order, fixed_texts. cbn [app].
  destruct (why_line_head factors) as [w ->]. spell_texts.
  repeat (apply NoDup_cons; split;
    [rewrite list_elem_of_In; cbn [In]; intros Hin;
       repeat (destruct Hin as [Hin|Hin]; [discriminate Hin|]); exact Hin|]).
  apply NoDup_nil. exact I.
Qed.

Lemma steps_sublist (thr : float) (m g : Z) (d : float) (sub : Z) (risk : float)
    (factors : list string) :
  List.concat (steps thr m g d sub risk factors) `sublist_of` texts_in_order factors.
Proof.
  unfold steps, texts_in_order, fixed_texts. cbv beta iota delta [List.concat].
  change [plan_48h; email_instructor; practice_block; office_hours; restart_momentum;
          weekly_schedule; active_recall; steady_pace; easiest_first]
    with ([plan_48h; email_instructor] ++ [practice_block; office_hours] ++
          [restart_momentum] ++ [weekly_schedule; active_recall; steady_pace] ++
          [easiest_first]).
  rewrite app_nil_r, <- !app_assoc.
  repeat apply sublist_app.
  - destruct (m >? 0); [reflexivity | apply sublist_nil_l].
  - destruct (g <? 80); [reflexivity | apply sublist_nil_l].
  - destruct (Float64.ge d (Float64.of_Z 4)); [reflexivity | apply sublist_nil_l].
  - destruct (Float64.ge risk thr).
    + apply sublist_skip, sublist_skip, sublist_nil_l.
    + apply sublist_cons, sublist_cons. reflexivity.
  - destruct (sub =? 0); [reflexivity | apply sublist_nil_l].
  - destruct factors; [apply sublist_nil_l | reflexivity].
Qed.

(** X6. Whenever the four signals of a payload convert,
    [build_recommendations] returns a list in which each text appears
    exactly when the condition of its step holds: the 48-hour plan and the
    e-mail to the instructor when [missing_14d > 0], the practice block and
    the office hours when [avg_grade_pct < 80], the momentum restart when
    [days_inactive >= 4], the weekly schedule and the active recall when
    [risk_score >= RISK_THRESHOLD] and the steady pace otherwise, the
    easiest assignment first when [submitted_14d == 0], and the
    "Why this plan" line when the factor list is not empty. *)
Theorem recommendation_given_iff_condition (thr : float) (p : payload) (risk : float)
    (factors : list string) (m g : Z) (d : float) (sub : Z) :
  coerce_signals p = Ok (m, g, d) ->
  py_int (get p "submitted_14d" (VInt 0)) = Ok sub ->
  exists recs, build_recommendations thr p risk factors = Ok recs /\
    (In plan_48h recs <-> 0 < m) /\
    (In email_instructor recs <-> 0 < m) /\
    (In practice_block recs <-> g < 80) /\
    (In office_hours recs <-> g < 80) /\
    (In restart_momentum recs <-> Float64.ge d (Float64.of_Z 4) = true) /\
    (In weekly_schedule recs <-> Float64.ge risk thr = true) /\
    (In active_recall recs <-> Float64.ge risk thr = true) /\
    (In steady_pace recs <-> Float64.ge risk thr = false) /\
    (In easiest_first recs <-> sub = 0) /\
    (In (why_line factors) recs <-> factors <> []).
Proof.
  intros Hx Hsub. rewrite (build_recommendations_steps thr p risk factors m g d sub Hx Hsub).
  eexists. split; [reflexivity|].
  refine (conj _ (conj _ (conj _ (conj _ (conj _ (conj _ (conj _ (conj _ (conj _ _)))))))));
    text_iff factors.
Qed.

Lemma recommendation_given_iff_condition_witness :
  exists recs,
    build_recommendations DEFAULT_RISK_THRESHOLD
      {[ "missing_14d"%string := VInt 1; "avg_grade_pct"%string := VInt 90;
         "days_inactive"%string := VInt 5; "submitted_14d"%string := VInt 2 ]}
      (float_lit "0.33") ["1 missing assignment (14d)"; "Inactive 4+ days"]%string = Ok recs /\
    (In plan_48h recs <-> 0 < 1) /\
    (In email_instructor recs <-> 0 < 1) /\
    (In practice_block recs <-> 90 < 80) /\
    (In office_hours recs <-> 90 < 80) /\
    (In restart_momentum recs <-> Float64.ge (Float64.of_Z 5) (Float64.of_Z 4) = true) /\
    (In weekly_schedule recs <->
       Float64.ge (float_lit "0.33") DEFAULT_RISK_THRESHOLD = true) /\
    (In active_recall recs <->
       Float64.ge (float_lit "0.33") DEFAULT_RISK_THRESHOLD = true) /\
    (In steady_pace recs <->
       Float64.ge (float_lit "0.33") DEFAULT_RISK_THRESHOLD = false) /\
    (In easiest_first recs <-> 2 = 0) /\
    (In (why_line ["1 missing assignment (14d)"; "Inactive 4+ days"]%string) recs <->
       ["1 missing assignment (14d)"; "Inactive 4+ days"]%string <> []).
Proof.
  apply recommendation_given_iff_condition; vm_compute; reflexivity.
Defined.

(** X7. Whenever the four signals convert, the recommendations come in
    one fixed order (the order of [texts_in_order]: the texts of the steps
    as they are written, then the "Why this plan" line), none is repeated,
    there are at least 1 and at most 9 of them, and when the factor list is
    not empty the "Why this plan" line is the last one. *)
Theorem recommendations_in_fixed_order (thr : float) (p : payload) (risk : float)
    (factors : list string) (m g : Z) (d : float) (sub : Z) :
  coerce_signals p = Ok (m, g, d) ->
  py_int (get p "submitted_14d" (VInt 0)) = Ok sub ->
  exists recs, build_recommendations thr p risk factors = Ok recs /\
    recs `sublist_of` texts_in_order factors /\
    NoDup recs /\
    (1 <= length recs <= 9)%nat /\
    (factors <> [] -> exists front, recs = front ++ [why_line factors]).
Proof.
  intros Hx Hsub. rewrite (build_recommendations_steps thr p risk factors m g d sub Hx Hsub).
  eexists. split; [reflexivity|].
  pose proof (steps_sublist thr m g d sub risk factors) as Hsl.
  split; [exact Hsl|]. split; [eapply sublist_NoDup; eauto using texts_NoDup|].
  split.
  - unfold steps. cbv beta iota delta [List.concat]. rewrite !length_app.
    destruct (m >? 0), (g <? 80), (Float64.ge d (Float64.of_Z 4)), (Float64.ge risk thr),
      (sub =? 0), factors; cbn [length]; lia.
  - intros Hne. destruct factors as [|f fs]; [contradiction Hne; reflexivity|].
    unfold steps. cbv beta iota delta [List.concat]. rewrite app_nil_r, !app_assoc.
    eexists. reflexivity.
Qed.

Lemma recommendations_in_fixed_order_witness :
  exists recs,
    build_recommendations DEFAULT_RISK_THRESHOLD scenario_B (float_lit "1.0")
      ["3+ missing assignments (14d)"; "Average grade < 70%"; "Inactive 7+ days"]%string
      = Ok recs /\
    recs `sublist_of` texts_in_order
      ["3+ missing assignments (14d)"; "Average grade < 70%"; "Inactive 7+ days"]%string /\
    NoDup recs /\
    (1 <= length recs <= 9)%nat /\
    (["3+ missing assignments (14d)"; "Average grade < 70%"; "Inactive 7+ days"]%string <> [] ->
     exists front, recs = front ++
       [why_line ["3+ missing assignments (14d)"; "Average grade < 70%";
                  "Inactive 7+ days"]%string]).
Proof.
  apply (recommendations_in_fixed_order _ _ _ _ 3 60 (Float64.of_Z 8) 0);
    vm_compute; reflexivity.
Defined.

(** X8. When [build_recommendations] is given the score and factors
    [compute_risk] returned for the same payload, every priority action is
    backed by a factor of the list: the 48-hour plan is recommended exactly
    when one of the three missing-assignment factors is listed, the
    practice block exactly when "Average grade < 70%" or
    "Average grade < 80%" is listed, and the momentum restart exactly when
    "Inactive 7+ days" or "Inactive 4+ days" is listed. *)
Theorem priority_actions_are_explained (thr : float) (p : payload) (s : float)
    (fs recs : list string) :
  compute_risk p = Ok (s, fs) ->
  build_recommendations thr p s fs = Ok recs ->
  (In plan_48h recs <->
     In "3+ missing assignments (14d)"%string fs \/
     In "2 missing assignments (14d)"%string fs \/
     In "1 missing assignment (14d)"%string fs) /\
  (In practice_block recs <->
     In "Average grade < 70%"%string fs \/ In "Average grade < 80%"%string fs) /\
  (In restart_momentum recs <->
     In "Inactive 7+ days"%string fs \/ In "Inactive 4+ days"%string fs).
Proof.
  intros Hrisk Hrecs.
  destruct (compute_risk_inv p _ Hrisk) as ([[m g] d] & Hx & Hr).
  destruct (build_recommendations_inv thr p s fs recs m g d Hx Hrecs) as (sub & _ & ->).
  assert (Hfs : fs = snd (risk_of_signals (m, g, d))) by (rewrite <- Hr; reflexivity).
  destruct (factors_by_band m g d fs Hfs) as (F1 & F2 & F3 & F4 & F5 & _ & F7 & F8 & _).
  rewrite F1, F2, F3, F4, F5, F7, F8.
  assert (T1 : In plan_48h (List.concat (steps thr m g d sub s fs)) <-> 0 < m)
    by text_iff fs.
  assert (T2 : In practice_block (List.concat (steps thr m g d sub s fs)) <-> g < 80)
    by text_iff fs.
  assert (T3 : In restart_momentum (List.concat (steps thr m g d sub s fs)) <->
               Float64.ge d (Float64.of_Z 4) = true) by text_iff fs.
  rewrite T1, T2, T3. pose proof (ge_4_of_7 d) as H47.
  split; [lia|]. split; [lia|].
  destruct (Float64.ge d (Float64.of_Z 7)), (Float64.ge d (Float64.of_Z 4));
    intuition discriminate.
Qed.

Lemma priority_actions_are_explained_witness :
  exists recs,
    build_recommendations DEFAULT_RISK_THRESHOLD scenario_B (float_lit "1.0")
      ["3+ missing assignments (14d)"; "Average grade < 70%"; "Inactive 7+ days"]%string
      = Ok recs /\
    In plan_48h recs /\ In practice_block recs /\ In restart_momentum recs.
Proof.
  eexists. split; [vm_compute; reflexivity|].
  pose proof (priority_actions_are_explained DEFAULT_RISK_THRESHOLD scenario_B
    (float_lit "1.0")
    ["3+ missing assignments (14d)"; "Average grade < 70%"; "Inactive 7+ days"]%string _
    ltac:(vm_compute; reflexivity) ltac:(vm_compute; reflexivity)) as (H1 & H2 & H3).
  split; [apply H1; left; left; reflexivity|].
  split; [apply H2; left; right; left; reflexivity
         | apply H3; left; right; right; left; reflexivity].
Defined.

(** ** The handler *)

Lemma same_float_eq (x y : float) : same_float x y = true -> x = y.
Proof.
  destruct x as [s|s| |s m e], y as [s'|s'| |s' m' e']; simpl; try discriminate.
  - intros H. apply eqb_prop in H. congruence.
  - intros H. apply eqb_prop in H. congruence.
  - reflexivity.
  - intros H. apply andb_prop in H. destruct H as [H He].
    apply andb_prop in H. destruct H as [Hs Hm].
    apply eqb_prop in Hs. apply Pos.eqb_eq in Hm. apply Z.eqb_eq in He. congruence.
Qed.

(** What [round(risk, 3)] is for a score of [compute_risk]. *)
Lemma round_of_score (x : Z * Z * float) :
  exists k r, 0 <= k <= 100 /\
    py_round (fst (risk_of_signals x)) 3 = Ok r /\
    r = Float64.of_decimal false k (-2) /\
    Float64.ge (fst (risk_of_signals x)) DEFAULT_RISK_THRESHOLD =
      Float64.ge r DEFAULT_RISK_THRESHOLD.
Proof.
  assert (Hall : all_rungs (fun a b c =>
      rounds_to_hundredth (fst (assemble a b c)) &&
      level_survives_rounding (fst (assemble a b c))) = true)
    by (vm_compute; reflexivity).
  destruct x as [[m g] d].
  pose proof (all_rungs_In _ _ _ _ Hall (missing_rung m) (grade_rung g) (inactive_rung d)) as H.
  cbv beta in H. apply andb_prop in H. destruct H as [Hk Hlevel].
  unfold risk_of_signals. unfold rounds_to_hundredth in Hk.
  unfold level_survives_rounding in Hlevel.
  destruct (py_round (fst (assemble _ _ _)) 3) as [r|e]; [|discriminate Hk].
  apply existsb_exists in Hk. destruct Hk as (k & Hin & Heq).
  apply same_float_eq in Heq. apply list_elem_of_In, elem_of_seqZ in Hin.
  apply eqb_prop in Hlevel.
  exists k, r. repeat split; try lia; assumption.
Qed.

Lemma get_present (p : payload) (key : string) (dflt v : value) :
  p !! key = Some v -> get p key dflt = v.
Proof. unfold get. intros ->. reflexivity. Qed.

Lemma not_preflight (event : payload) :
  event !! "requestContext"%string = None ->
  (http ← py_get (get event "requestContext" (VDict ∅)) "http" (VDict ∅);
   py_get http "method" VNone) = Return VNone.
Proof. intros H. rewrite (get_absent _ _ _ H). reflexivity. Qed.

(** Past the preflight test, the handler parses, logs, scores and answers. *)
Lemma handler_without_context (json_loads : string -> option value)
    (json_dumps : list (string * value) -> string) (thr : float) (epoch : Z)
    (event : payload) (context : value) (p : payload) :
  event !! "requestContext"%string = None ->
  _safe_json json_loads (get event "body" (VStr "")) = VDict p ->
  lambda_handler json_loads json_dumps thr epoch event context =
    ([sorted_keys p],
     '(risk, factors) ← lift (compute_risk p);
     recs ← lift (build_recommendations thr p risk factors);
     risk_score ← lift (py_round risk 3);
     mret (response json_dumps 200
       [ ("ok"%string, VBool true);
         ("risk_score"%string, VFloat risk_score);
         ("risk_level"%string, VStr (risk_level thr risk));
         ("factors"%string, VList (VStr <$> factors));
         ("recommendations"%string, VList (VStr <$> recs));
         ("generated_at_epoch"%string, VInt epoch) ])).
Proof.
  intros Hctx Hp. unfold lambda_handler. rewrite (not_preflight event Hctx), Hp.
  reflexivity.
Qed.

(** Every way the handler returns. *)
Lemma handler_return_inv (json_loads : string -> option value)
    (json_dumps : list (string * value) -> string) (thr : float) (epoch : Z)
    (event : payload) (context r : value) :
  snd (lambda_handler json_loads json_dumps thr epoch event context) = Return r ->
  r = response json_dumps 200 [("ok"%string, VBool true)] \/
  exists p x recs risk_score,
    _safe_json json_loads (get event "body" (VStr "")) = VDict p /\
    coerce_signals p = Ok x /\
    build_recommendations thr p (fst (risk_of_signals x)) (snd (risk_of_signals x)) = Ok recs /\
    py_round (fst (risk_of_signals x)) 3 = Ok risk_score /\
    r = response json_dumps 200
       [ ("ok"%string, VBool true);
         ("risk_score"%string, VFloat risk_score);
         ("risk_level"%string, VStr (risk_level thr (fst (risk_of_signals x))));
         ("factors"%string, VList (VStr <$> snd (risk_of_signals x)));
         ("recommendations"%string, VList (VStr <$> recs));
         ("generated_at_epoch"%string, VInt epoch) ].
Proof.
  unfold lambda_handler.
  destruct (py_get (get event "requestContext" (VDict ∅)) "http" (VDict ∅)) as [http|e];
    [|discriminate].
  cbv beta iota delta [mbind outcome_bind].
  destruct (py_get http "method" VNone) as [method|e]; [|discriminate].
  destruct (eq_str method "OPTIONS").
  { intros [= <-]. left. reflexivity. }
  destruct (_safe_json json_loads (get event "body" (VStr ""))) as [ |b|z|f|s|l|p];
    try discriminate.
  rewrite compute_risk_signals.
  destruct (coerce_signals p) as [x|e] eqn:Hx; [|discriminate].
  cbv beta iota delta [mbind result_bind mret result_ret lift snd].
  destruct (risk_of_signals x) as [risk factors] eqn:Hr.
  cbv beta iota delta [fst snd].
  destruct (build_recommendations thr p risk factors) as [recs|e] eqn:Hrecs; [|discriminate].
  destruct (py_round risk 3) as [risk_score|e] eqn:Hround; [|discriminate].
  intros [= <-]. right. exists p, x, recs, risk_score.
  rewrite Hr. cbn [fst snd]. repeat split; assumption.
Qed.

Lemma response_fields (json_dumps : list (string * value) -> string) (status : Z)
    (body : list (string * value)) :
  exists d headers, response json_dumps status body = VDict d /\
    d !! "statusCode"%string = Some (VInt status) /\
    d !! "headers"%string = Some (VDict headers) /\
    d !! "body"%string = Some (VStr (json_dumps body)) /\
    headers !! "Content-Type"%string = Some (VStr "application/json") /\
    headers !! "Access-Control-Allow-Origin"%string = Some (VStr "*") /\
    headers !! "Access-Control-Allow-Headers"%string = Some (VStr "Content-Type,Authorization") /\
    headers !! "Access-Control-Allow-Methods"%string = Some (VStr "OPTIONS,POST").
Proof. unfold response. eexists _, _. repeat apply conj; reflexivity. Qed.

Lemma empty_payload_run :
  compute_risk ∅ = Ok (float_lit "0.35", ["Average grade < 70%"%string]) /\
  build_recommendations DEFAULT_RISK_THRESHOLD ∅ (float_lit "0.35")
    ["Average grade < 70%"%string] =
    Ok [practice_block; office_hours; steady_pace; easiest_first;
        "Why this plan: Average grade < 70%."%string] /\
  py_round (float_lit "0.35") 3 = Ok (float_lit "0.35") /\
  risk_level DEFAULT_RISK_THRESHOLD (float_lit "0.35") = "LOW"%string /\
  sorted_keys ∅ = [].
Proof. evaluate. Qed.

#[global] Instance str_le_total : Total str_le.
Proof. intros a b. apply String.leb_total. Qed.

(** X9. [_safe_json] gives the empty dict for a body that is falsy
    ([None], the empty text, 0, ...), for a body that is not a text, and
    for a text that [json.loads] rejects ([json.loads] turning the text of
    the empty object into the empty dict). *)
Theorem safe_json_falls_back_to_empty (json_loads : string -> option value) (body : value) :
  json_loads "{}"%string = Some (VDict ∅) ->
  truthy body = false \/ (forall s, body <> VStr s) \/
    (exists s, body = VStr s /\ json_loads s = None) ->
  _safe_json json_loads body = VDict ∅.
Proof.
  intros Hempty Hbody. unfold _safe_json.
  destruct (truthy body) eqn:Ht; [|rewrite Hempty; reflexivity].
  destruct Hbody as [Hf | [Hns | (s & -> & Hs)]].
  - discriminate Hf.
  - destruct body as [ |b|z|x|s|l|d]; try reflexivity. contradiction (Hns s). reflexivity.
  - rewrite Hs. reflexivity.
Qed.

Lemma safe_json_falls_back_to_empty_witness :
  _safe_json sample_loads (VStr "") = VDict ∅ /\
  _safe_json sample_loads (VInt 7) = VDict ∅ /\
  _safe_json sample_loads (VStr "not json") = VDict ∅.
Proof.
  repeat apply conj; apply safe_json_falls_back_to_empty; try reflexivity.
  - left. reflexivity.
  - right. left. intros s. discriminate.
  - right. right. exists "not json"%string. split; reflexivity.
Defined.

(** X10. A preflight request, one whose [requestContext.http.method] is
    "OPTIONS", is answered with status 200 and the body [{"ok": true}]
    whatever else the event holds: the body is not parsed, nothing is
    logged and nothing is scored. *)
Theorem preflight_answered_without_reading_body (json_loads : string -> option value)
    (json_dumps : list (string * value) -> string) (thr : float) (epoch : Z)
    (event : payload) (context : value) (rc http : payload) :
  event !! "requestContext"%string = Some (VDict rc) ->
  rc !! "http"%string = Some (VDict http) ->
  http !! "method"%string = Some (VStr "OPTIONS") ->
  lambda_handler json_loads json_dumps thr epoch event context =
    ([], Return (response json_dumps 200 [("ok"%string, VBool true)])).
Proof.
  intros Hrc Hhttp Hmethod. unfold lambda_handler.
  assert (E : (h ← py_get (get event "requestContext" (VDict ∅)) "http" (VDict ∅);
               py_get h "method" VNone) = Return (VStr "OPTIONS")).
  { rewrite (get_present _ _ _ _ Hrc). cbn [py_get].
    rewrite (get_present _ _ _ _ Hhttp). cbn [mbind outcome_bind py_get].
    rewrite (get_present _ _ _ _ Hmethod). reflexivity. }
  rewrite E. reflexivity.
Qed.

Lemma preflight_answered_without_reading_body_witness :
  lambda_handler sample_loads sample_dumps DEFAULT_RISK_THRESHOLD 1700000000
    {[ "requestContext"%string :=
         VDict {[ "http"%string := VDict {[ "method"%string := VStr "OPTIONS" ]} ]};
       "body"%string := VStr "[1, 2]" ]} VNone =
    ([], Return (response sample_dumps 200 [("ok"%string, VBool true)])).
Proof.
  apply (preflight_answered_without_reading_body _ _ _ _ _ _
           {[ "http"%string := VDict {[ "method"%string := VStr "OPTIONS" ]} ]}
           {[ "method"%string := VStr "OPTIONS" ]}); reflexivity.
Defined.

(** X11. An event whose [requestContext] is present but is not an object
    ([null], a text, a list, ...), or whose [requestContext.http] is
    present but is not an object, makes the handler raise AttributeError
    before anything is parsed or logged. *)
Theorem malformed_request_context_raises (json_loads : string -> option value)
    (json_dumps : list (string * value) -> string) (thr : float) (epoch : Z)
    (event : payload) (context : value) :
  (exists v, event !! "requestContext"%string = Some v /\ forall d, v <> VDict d) \/
  (exists rc v, event !! "requestContext"%string = Some (VDict rc) /\
     rc !! "http"%string = Some v /\ forall d, v <> VDict d) ->
  lambda_handler json_loads json_dumps thr epoch event context = ([], Throw AttributeError).
Proof.
  intros [(v & Hv & Hnd) | (rc & v & Hrc & Hv & Hnd)]; unfold lambda_handler.
  - rewrite (get_present _ _ _ _ Hv).
    destruct v as [ |b|z|x|s|l|d]; try reflexivity. contradiction (Hnd d). reflexivity.
  - rewrite (get_present _ _ _ _ Hrc). cbn [py_get].
    rewrite (get_present _ _ _ _ Hv). cbn [mbind outcome_bind].
    destruct v as [ |b|z|x|s|l|d]; try reflexivity. contradiction (Hnd d). reflexivity.
Qed.

Lemma malformed_request_context_raises_witness :
  lambda_handler sample_loads sample_dumps DEFAULT_RISK_THRESHOLD 1700000000
    {[ "requestContext"%string := VNone; "body"%string := VStr "{}" ]} VNone =
    ([], Throw AttributeError).
Proof.
  apply malformed_request_context_raises. left. exists VNone.
  split; [reflexivity | discriminate].
Defined.

(** X12. A body whose text parses to something that is not an object (a
    list, a number, a text, [null]) is handed on by [_safe_json] as it is,
    and the handler then raises AttributeError at [payload.keys()]: it
    logs nothing and answers nothing. *)
Theorem non_object_payload_raises (json_loads : string -> option value)
    (json_dumps : list (string * value) -> string) (thr : float) (epoch : Z)
    (event : payload) (context : value) (s : string) (v : value) :
  event !! "requestContext"%string = None ->
  event !! "body"%string = Some (VStr s) ->
  s <> ""%string ->
  json_loads s = Some v ->
  (forall p, v <> VDict p) ->
  _safe_json json_loads (VStr s) = v /\
  lambda_handler json_loads json_dumps thr epoch event context = ([], Throw AttributeError).
Proof.
  intros Hctx Hbody Hs Hv Hnd.
  assert (Hp : _safe_json json_loads (VStr s) = v).
  { unfold _safe_json, truthy. destruct (String.eqb_spec s ""); [contradiction|].
    cbn [negb]. rewrite Hv. reflexivity. }
  split; [exact Hp|].
  unfold lambda_handler. rewrite (not_preflight event Hctx).
  cbv beta iota delta [eq_str]. rewrite (get_present _ _ _ _ Hbody), Hp.
  destruct v as [ |b|z|x|t|l|d]; try reflexivity. contradiction (Hnd d). reflexivity.
Qed.

Lemma non_object_payload_raises_witness :
  _safe_json sample_loads (VStr "[1, 2]") = VList [VInt 1; VInt 2] /\
  lambda_handler sample_loads sample_dumps DEFAULT_RISK_THRESHOLD 1700000000
    {[ "body"%string := VStr "[1, 2]" ]} VNone = ([], Throw AttributeError).
Proof.
  apply non_object_payload_raises; try reflexivity; discriminate.
Defined.

(** X13. Under the default threshold an event with no [requestContext]
    whose body is absent, [null] or the empty text is answered as the empty
    payload is: one log line with no key, status 200, risk score 0.35,
    level "LOW", the single factor "Average grade < 70%" and five
    recommendations (practice block, office hours, steady pace, easiest
    assignment first, the "Why this plan" line). *)
Theorem empty_body_is_empty_payload (json_loads : string -> option value)
    (json_dumps : list (string * value) -> string) (epoch : Z)
    (event : payload) (context : value) :
  json_loads "{}"%string = Some (VDict ∅) ->
  event !! "requestContext"%string = None ->
  event !! "body"%string = None \/ event !! "body"%string = Some VNone \/
    event !! "body"%string = Some (VStr "") ->
  lambda_handler json_loads json_dumps DEFAULT_RISK_THRESHOLD epoch event context =
    ([[]],
     Return (response json_dumps 200
       [ ("ok"%string, VBool true);
         ("risk_score"%string, VFloat (float_lit "0.35"));
         ("risk_level"%string, VStr "LOW");
         ("factors"%string, VList [VStr "Average grade < 70%"]);
         ("recommendations"%string,
          VList [VStr practice_block; VStr office_hours; VStr steady_pace;
                 VStr easiest_first; VStr "Why this plan: Average grade < 70%."]);
         ("generated_at_epoch"%string, VInt epoch) ])).
Proof.
  intros Hempty Hctx Hbody.
  assert (Hp : _safe_json json_loads (get event "body" (VStr "")) = VDict ∅).
  { unfold _safe_json.
    destruct Hbody as [Hb | [Hb | Hb]];
      [rewrite (get_absent _ _ _ Hb) | rewrite (get_present _ _ _ _ Hb) ..];
      cbn [truthy String.eqb negb]; rewrite Hempty; reflexivity. }
  rewrite (handler_without_context _ _ _ _ _ _ ∅ Hctx Hp).
  destruct empty_payload_run as (Hrisk & Hrecs & Hround & Hlevel & Hkeys).
  rewrite Hkeys, Hrisk. cbn [lift mbind outcome_bind].
  rewrite Hrecs. cbn [lift mbind outcome_bind]. rewrite Hround, Hlevel. reflexivity.
Qed.

Lemma empty_body_is_empty_payload_witness :
  exists r, lambda_handler sample_loads sample_dumps DEFAULT_RISK_THRESHOLD 1700000000
    ∅ VNone = ([[]], Return r).
Proof.
  eexists. apply (empty_body_is_empty_payload sample_loads sample_dumps 1700000000 ∅ VNone).
  - reflexivity.
  - reflexivity.
  - left. reflexivity.
Defined.

(** X14. Whenever the handler returns, preflight or not, what it returns
    is a response with status code 200, a text body and the four CORS
    headers (content type application/json, any origin, the headers
    Content-Type and Authorization, the methods OPTIONS and POST): it has
    no other status, every failure is an exception. *)
Theorem every_answer_is_200_with_cors (json_loads : string -> option value)
    (json_dumps : list (string * value) -> string) (thr : float) (epoch : Z)
    (event : payload) (context r : value) :
  snd (lambda_handler json_loads json_dumps thr epoch event context) = Return r ->
  exists d headers body, r = VDict d /\
    d !! "statusCode"%string = Some (VInt 200) /\
    d !! "headers"%string = Some (VDict headers) /\
    d !! "body"%string = Some (VStr body) /\
    headers !! "Content-Type"%string = Some (VStr "application/json") /\
    headers !! "Access-Control-Allow-Origin"%string = Some (VStr "*") /\
    headers !! "Access-Control-Allow-Headers"%string = Some (VStr "Content-Type,Authorization") /\
    headers !! "Access-Control-Allow-Methods"%string = Some (VStr "OPTIONS,POST").
Proof.
  intros Hr.
  destruct (handler_return_inv _ _ _ _ _ _ _ Hr) as [-> | (p & x & recs & rs & _ & _ & _ & _ & ->)].
  - destruct (response_fields json_dumps 200 [("ok"%string, VBool true)])
      as (d & headers & H). exists d, headers. eexists. exact H.
  - match goal with |- context [response json_dumps 200 ?b] =>
      destruct (response_fields json_dumps 200 b) as (d & headers & H) end.
    exists d, headers. eexists. exact H.
Qed.

Lemma every_answer_is_200_with_cors_witness :
  exists d headers body, response sample_dumps 200 [("ok"%string, VBool true)] = VDict d /\
    d !! "statusCode"%string = Some (VInt 200) /\
    d !! "headers"%string = Some (VDict headers) /\
    d !! "body"%string = Some (VStr body) /\
    headers !! "Content-Type"%string = Some (VStr "application/json") /\
    headers !! "Access-Control-Allow-Origin"%string = Some (VStr "*") /\
    headers !! "Access-Control-Allow-Headers"%string = Some (VStr "Content-Type,Authorization") /\
    headers !! "Access-Control-Allow-Methods"%string = Some (VStr "OPTIONS,POST").
Proof.
  apply (every_answer_is_200_with_cors sample_loads sample_dumps DEFAULT_RISK_THRESHOLD
           1700000000
           {[ "requestContext"%string :=
                VDict {[ "http"%string := VDict {[ "method"%string := VStr "OPTIONS" ]} ]} ]}
           VNone).
  reflexivity.
Defined.

(** X15. For an event with no [requestContext] whose body parses to an
    object, the handler returns a response exactly when the four signals
    of that object convert; when one of the three scored signals does
    not, or [submitted_14d] does not, the handler raises the error of that
    conversion (no 4xx answer is made). *)
Theorem handler_answers_iff_signals_convert (json_loads : string -> option value)
    (json_dumps : list (string * value) -> string) (thr : float) (epoch : Z)
    (event : payload) (context : value) (p : payload) :
  event !! "requestContext"%string = None ->
  _safe_json json_loads (get event "body" (VStr "")) = VDict p ->
  ((exists r, snd (lambda_handler json_loads json_dumps thr epoch event context) = Return r) <->
     returns (coerce_signals p) /\ returns (py_int (get p "submitted_14d" (VInt 0)))) /\
  (forall e, coerce_signals p = Raise e ->
     snd (lambda_handler json_loads json_dumps thr epoch event context) = Throw (Core e)) /\
  (forall x e, coerce_signals p = Ok x ->
     py_int (get p "submitted_14d" (VInt 0)) = Raise e ->
     snd (lambda_handler json_loads json_dumps thr epoch event context) = Throw (Core e)).
Proof.
  intros Hctx Hp. rewrite (handler_without_context _ _ _ _ _ _ p Hctx Hp). cbn [snd].
  rewrite compute_risk_signals.
  destruct (coerce_signals p) as [x|e] eqn:Hx.
  - cbn [mbind result_bind mret result_ret lift outcome_bind].
    destruct (risk_of_signals x) as [risk factors] eqn:Hr.
    destruct (py_int (get p "submitted_14d" (VInt 0))) as [sub|e] eqn:Hsub.
    + destruct x as [[m g] d].
      rewrite (build_recommendations_steps thr p risk factors m g d sub Hx Hsub).
      cbn [lift outcome_bind].
      destruct (round_of_score (m, g, d)) as (k & r & _ & Hround & _).
      rewrite Hr in Hround. cbn [fst] in Hround. rewrite Hround. cbn [lift outcome_bind].
      split; [|split; [discriminate | discriminate]].
      split; [intros _; split; eexists; reflexivity | intros _; eexists; reflexivity].
    + rewrite (build_recommendations_raises thr p risk factors x e Hx Hsub).
      cbn [lift outcome_bind].
      split; [|split; [discriminate | intros x' e' _ [= ->]; reflexivity]].
      split; [intros [r Hret]; discriminate Hret | intros [_ [a Ha]]; discriminate Ha].
  - cbn [mbind result_bind lift outcome_bind].
    split; [|split; [intros e' [= ->]; reflexivity | discriminate]].
    split; [intros [r Hret]; discriminate Hret | intros [[a Ha] _]; discriminate Ha].
Qed.

Lemma handler_answers_iff_signals_convert_witness :
  exists r, snd (lambda_handler sample_loads sample_dumps DEFAULT_RISK_THRESHOLD 1700000000
                   {[ "body"%string := VStr sample_body ]} VNone) = Return r.
Proof.
  assert (Hctx : ({[ "body"%string := VStr sample_body ]} : payload)
                   !! "requestContext"%string = None) by reflexivity.
  assert (Hp : _safe_json sample_loads
                 (get {[ "body"%string := VStr sample_body ]} "body" (VStr ""))
               = VDict {[ "missing_14d"%string := VInt 3 ]}) by reflexivity.
  destruct (handler_answers_iff_signals_convert sample_loads sample_dumps
              DEFAULT_RISK_THRESHOLD 1700000000 {[ "body"%string := VStr sample_body ]} VNone _
              Hctx Hp) as [[_ Hret] _].
  apply Hret. split; eexists; reflexivity.
Defined.

(** X16. Whenever the handler returns and the request is not a preflight
    one, the [risk_score] of the response is the float of a decimal with
    two places between 0.00 and 1.00, that is of k/100 for an integer k
    from 0 to 100: [round(risk, 3)] removes what the binary64 additions
    left in the last bits of the sum. *)
Theorem reported_score_has_two_decimals (json_loads : string -> option value)
    (json_dumps : list (string * value) -> string) (thr : float) (epoch : Z)
    (event : payload) (context r : value) :
  snd (lambda_handler json_loads json_dumps thr epoch event context) = Return r ->
  r = response json_dumps 200 [("ok"%string, VBool true)] \/
  exists k level factors recs, 0 <= k <= 100 /\
    r = response json_dumps 200
       [ ("ok"%string, VBool true);
         ("risk_score"%string, VFloat (Float64.of_decimal false k (-2)));
         ("risk_level"%string, VStr level);
         ("factors"%string, VList (VStr <$> factors));
         ("recommendations"%string, VList (VStr <$> recs));
         ("generated_at_epoch"%string, VInt epoch) ].
Proof.
  intros Hr.
  destruct (handler_return_inv _ _ _ _ _ _ _ Hr)
    as [-> | (p & x & recs & rs & _ & _ & _ & Hround & ->)]; [left; reflexivity|].
  right. destruct (round_of_score x) as (k & r' & Hk & Hround' & -> & _).
  rewrite Hround in Hround'. injection Hround' as ->.
  exists k. eexists _, _, _. split; [exact Hk | reflexivity].
Qed.

Lemma reported_score_has_two_decimals_witness :
  exists r,
    snd (lambda_handler sample_loads sample_dumps DEFAULT_RISK_THRESHOLD 1700000000
           {[ "body"%string := VStr sample_body ]} VNone) = Return r /\
    (r = response sample_dumps 200 [("ok"%string, VBool true)] \/
     exists k level factors recs, 0 <= k <= 100 /\
       r = response sample_dumps 200
         [ ("ok"%string, VBool true);
           ("risk_score"%string, VFloat (Float64.of_decimal false k (-2)));
           ("risk_level"%string, VStr level);
           ("factors"%string, VList (VStr <$> factors));
           ("recommendations"%string, VList (VStr <$> recs));
           ("generated_at_epoch"%string, VInt 1700000000) ]).
Proof.
  eexists. split; [vm_compute; reflexivity|].
  apply (reported_score_has_two_decimals sample_loads sample_dumps DEFAULT_RISK_THRESHOLD
           1700000000 {[ "body"%string := VStr sample_body ]} VNone).
  vm_compute. reflexivity.
Defined.

(** X17. Under the default threshold the reported level agrees with the
    reported score: whenever the handler returns and the request is not a
    preflight one, [risk_level] is "HIGH" with a [risk_score]
    (the rounded one) of at least 0.75, or "LOW" with a [risk_score]
    below 0.75, although the level is computed from the score before
    rounding. *)
Theorem reported_level_matches_reported_score (json_loads : string -> option value)
    (json_dumps : list (string * value) -> string) (epoch : Z)
    (event : payload) (context r : value) :
  snd (lambda_handler json_loads json_dumps DEFAULT_RISK_THRESHOLD epoch event context)
    = Return r ->
  r = response json_dumps 200 [("ok"%string, VBool true)] \/
  exists risk_score level factors recs,
    r = response json_dumps 200
       [ ("ok"%string, VBool true);
         ("risk_score"%string, VFloat risk_score);
         ("risk_level"%string, VStr level);
         ("factors"%string, VList (VStr <$> factors));
         ("recommendations"%string, VList (VStr <$> recs));
         ("generated_at_epoch"%string, VInt epoch) ] /\
    (level = "HIGH"%string /\ Float64.ge risk_score DEFAULT_RISK_THRESHOLD = true \/
     level = "LOW"%string /\ Float64.ge risk_score DEFAULT_RISK_THRESHOLD = false).
Proof.
  intros Hr.
  destruct (handler_return_inv _ _ _ _ _ _ _ Hr)
    as [-> | (p & x & recs & rs & _ & _ & _ & Hround & ->)]; [left; reflexivity|].
  right. destruct (round_of_score x) as (k & r' & _ & Hround' & _ & Hlevel).
  rewrite Hround in Hround'. injection Hround' as <-.
  eexists _, _, _, _. split; [reflexivity|].
  unfold risk_level. rewrite Hlevel.
  destruct (Float64.ge rs DEFAULT_RISK_THRESHOLD); [left | right]; split; reflexivity.
Qed.

Lemma reported_level_matches_reported_score_witness :
  exists r,
    snd (lambda_handler sample_loads sample_dumps DEFAULT_RISK_THRESHOLD 1700000000
           {[ "body"%string := VStr sample_body ]} VNone) = Return r /\
    (r = response sample_dumps 200 [("ok"%string, VBool true)] \/
     exists risk_score level factors recs,
       r = response sample_dumps 200
         [ ("ok"%string, VBool true);
           ("risk_score"%string, VFloat risk_score);
           ("risk_level"%string, VStr level);
           ("factors"%string, VList (VStr <$> factors));
           ("recommendations"%string, VList (VStr <$> recs));
           ("generated_at_epoch"%string, VInt 1700000000) ] /\
       (level = "HIGH"%string /\ Float64.ge risk_score DEFAULT_RISK_THRESHOLD = true \/
        level = "LOW"%string /\ Float64.ge risk_score DEFAULT_RISK_THRESHOLD = false)).
Proof.
  eexists. split; [vm_compute; reflexivity|].
  apply (reported_level_matches_reported_score sample_loads sample_dumps
           1700000000 {[ "body"%string := VStr sample_body ]} VNone).
  vm_compute. reflexivity.
Defined.

(** X18. The handler logs at most one line, and a line it logs lists the
    key names of the parsed payload and nothing else: each key once, in
    ascending order, and no value of the payload. *)
Theorem log_lists_key_names_only (json_loads : string -> option value)
    (json_dumps : list (string * value) -> string) (thr : float) (epoch : Z)
    (event : payload) (context : value) (line : list string) :
  In line (fst (lambda_handler json_loads json_dumps thr epoch event context)) ->
  fst (lambda_handler json_loads json_dumps thr epoch event context) = [line] /\
  exists p, _safe_json json_loads (get event "body" (VStr "")) = VDict p /\
    Sorted str_le line /\ NoDup line /\
    forall key, In key line <-> is_Some (p !! key).
Proof.
  unfold lambda_handler.
  destruct (py_get (get event "requestContext" (VDict ∅)) "http" (VDict ∅)) as [http|e];
    [|intros []].
  cbv beta iota delta [mbind outcome_bind].
  destruct (py_get http "method" VNone) as [method|e]; [|intros []].
  destruct (eq_str method "OPTIONS"); [intros []|].
  destruct (_safe_json json_loads (get event "body" (VStr ""))) as [ |b|z|f|s|l|p];
    try (cbn [fst In]; intros Hin; contradiction).
  cbn [fst In]. intros [<- | []]. split; [reflexivity|].
  exists p. split; [reflexivity|]. unfold sorted_keys.
  split; [apply Sorted_merge_sort, _|].
  split.
  - rewrite merge_sort_Permutation. apply NoDup_elements.
  - intros key. rewrite <- list_elem_of_In, merge_sort_Permutation, elem_of_elements,
      elem_of_dom. reflexivity.
Qed.

Lemma log_lists_key_names_only_witness :
  fst (lambda_handler sample_loads sample_dumps DEFAULT_RISK_THRESHOLD 1700000000
         {[ "body"%string := VStr sample_body ]} VNone) = [["missing_14d"%string]] /\
  exists p, _safe_json sample_loads (get {[ "body"%string := VStr sample_body ]} "body" (VStr ""))
              = VDict p /\
    Sorted str_le ["missing_14d"%string] /\ NoDup ["missing_14d"%string] /\
    forall key, In key ["missing_14d"%string] <-> is_Some (p !! key).
Proof.
  apply (log_lists_key_names_only sample_loads sample_dumps DEFAULT_RISK_THRESHOLD 1700000000
           {[ "body"%string := VStr sample_body ]} VNone ["missing_14d"%string]).
  vm_compute. left. reflexivity.
Defined.
